(** * WeatherRetro: the data pipeline of [docs/main.js]

    The dashboard's program is the Python text held in [docs/main.js]
    (lines 44-330).  This development embeds its data pipeline

      load_data -> preprocess_data -> select_data -> plot_data

    shallowly: a pandas [DataFrame] is a list of column labels and a list of
    rows, each row carrying its date label (the ["day"] index) and its cells;
    a Python exception is an explicit [Raise] result; the [pn.cache] memo
    tables are finite maps threaded through the calls.

    Numbers.  pandas holds the cells as IEEE floats.  Here a present value is
    an exact rational and the missing marker is [NaN]; infinities are not
    modelled, and the rounding done by [astype("float32")] is a function
    taken as a parameter.  Comparisons and counts are the program's own, as
    rounding does not touch them.  The sums and quotients behind the mean and
    the median are exact here and rounded in the program, so that they stand
    for the program's values only up to rounding.  The percentile is given
    twice: its exact value, and the double the program computes
    ([percentileofscore_strict_double], on Rocq's primitive binary64
    floats). *)

From Stdlib Require Import QArith Qminmax Lqa Ascii.
From Stdlib Require Uint63 PrimFloat.
From stdpp Require Import gmap strings list sorting pretty.

Open Scope Z_scope.

(** ** Exceptions and results *)

(** The exceptions the modelled statements raise, by their Python class:
    [KeyError] (a label that is no column), [IndexError] (a position out of
    bounds), [ValueError] ([item()] on other than one element, [idxmin] of an
    empty series).  [Other] is any other exception class, by name. *)
Inductive exn : Type :=
  | KeyError
  | IndexError
  | ValueError
  | Other (name : string).

Inductive result (A : Type) : Type :=
  | Ok (a : A)
  | Raise (e : exn).
Arguments Ok {A} a.
Arguments Raise {A} e.

#[global] Instance result_ret : MRet result := λ A a, Ok a.
#[global] Instance result_bind : MBind result := λ A B f m,
  match m with
  | Ok a => f a
  | Raise e => Raise e
  end.

Definition is_ok {A} (r : result A) : bool :=
  match r with Ok _ => true | Raise _ => false end.

(** ** Data model *)

(** A calendar date, as the fields the program reads from a timestamp. *)
Record date : Type := Date { year : Z; month : Z; day : Z }.

(** A cell of the table [pd.read_csv] returns: a parsed number, the missing
    marker, or the text of a cell that did not parse as a number. *)
Inductive obj : Type :=
  | OStr (s : string)
  | ONum (q : Q)
  | ONaN.

(** A cell of a numeric column. *)
Inductive float : Type :=
  | Num (q : Q)
  | NaN.

Definition isna (x : float) : bool :=
  match x with NaN => true | Num _ => false end.

Definition notna (x : float) : bool := negb (isna x).

Record DataFrame (A : Type) : Type := Frame {
  columns : list string;
  rows : list (date * list A)
}.
Arguments Frame {A} columns rows.
Arguments columns {A} d.
Arguments rows {A} d.

(** [df.index] *)
Definition index {A} (df : DataFrame A) : list date := fst <$> rows df.

(** The cell of a row under a column label: the cell at the position of the
    first column so labelled. *)
Fixpoint cell_at {A} (cols : list string) (cells : list A) (label : string)
    : option A :=
  match cols, cells with
  | c :: cols', x :: cells' =>
      if decide (c = label) then Some x else cell_at cols' cells' label
  | _, _ => None
  end.

(** ** preprocess_data (lines 128-140) *)

(** The cells of a row that remain when the columns in [labels] go. *)
Fixpoint drop_cells {A} (labels cols : list string) (cells : list A) : list A :=
  match cols, cells with
  | c :: cols', x :: cells' =>
      if decide (c ∈ labels) then drop_cells labels cols' cells'
      else x :: drop_cells labels cols' cells'
  | _, _ => []
  end.

(** [df.drop(columns=labels)]: with the default [errors="raise"], a label
    that is no column raises [KeyError]. *)
Definition drop_columns {A} (labels : list string) (df : DataFrame A)
    : result (DataFrame A) :=
  if decide (labels ⊆ columns df) then
    Ok (Frame (filter (λ c, c ∉ labels) (columns df))
              ((λ r : date * list A,
                  (r.1, drop_cells labels (columns df) r.2)) <$> rows df))
  else Raise KeyError.

(** [df.apply(f)] and [df.astype(t)] for a function that acts cell by cell. *)
Definition applymap {A B} (f : A → B) (df : DataFrame A) : DataFrame B :=
  Frame (columns df) ((λ r : date * list A, (r.1, f <$> r.2)) <$> rows df).

Section Clean.

(** pandas' numeric parser on the text of a cell: the number, or [None]
    when the text fails to parse. *)
Variable parse_float : string → option Q.

(** Rounding of a number to 32-bit precision. *)
Variable float32 : Q → Q.

(** [pd.to_numeric(_, errors="coerce")] on one cell. *)
Definition to_numeric (o : obj) : float :=
  match o with
  | ONum q => Num q
  | ONaN => NaN
  | OStr s =>
      match parse_float s with
      | Some q => Num q
      | None => NaN
      end
  end.

(** [astype("float32")] on one cell. *)
Definition astype_float32 (x : float) : float :=
  match x with
  | Num q => Num (float32 q)
  | NaN => NaN
  end.

Definition preprocess_data (df : DataFrame obj) : result (DataFrame float) :=
  df1 ← drop_columns ["station"] df;
  Ok (applymap astype_float32 (applymap to_numeric df1)).

End Clean.

(** ** select_data (lines 143-151) *)

(** [a[mask]]: the elements of [a] at the positions where [mask] holds. *)
Fixpoint boolean_index {A} (mask : list bool) (l : list A) : list A :=
  match mask, l with
  | b :: mask', x :: l' =>
      if b then x :: boolean_index mask' l' else boolean_index mask' l'
  | _, _ => []
  end.

(** [df.loc[mask]] *)
Definition loc {A} (mask : list bool) (df : DataFrame A) : DataFrame A :=
  Frame (columns df) (boolean_index mask (rows df)).

(** [xs == v], element by element *)
Definition eq_scalar (xs : list Z) (v : Z) : list bool :=
  (λ x, bool_decide (x = v)) <$> xs.

(** [a & b], element by element *)
Definition mask_and (a b : list bool) : list bool := zip_with andb a b.

Definition select_data (d : date) (preprocess_df : DataFrame float)
    : DataFrame float :=
  loc (mask_and (eq_scalar (month <$> index preprocess_df) (month d))
                (eq_scalar (day <$> index preprocess_df) (day d)))
      preprocess_df.

(** ** plot_data (lines 154-276): the numbers behind the display *)

(** Python's [range(start, stop, step)], for a positive [step]. *)
Definition range (start stop step : Z) : list Z :=
  (λ i, start + i * step) <$> seqZ 0 ((stop - start + step - 1) `div` step).

(** The interval [(left, right]], open on the left and closed on the right,
    that labels a bin of [pd.cut]. *)
Record Interval : Type := { left_edge : Z; right_edge : Z }.

(** [bins.searchsorted(x, side="left")] on ascending [bins]: the number of
    bins strictly below [x]. *)
Definition searchsorted_left (bins : list Z) (x : Z) : nat :=
  length (filter (λ b, b < x) bins).

(** [pd.cut(x, bins)] on one value, with the defaults [right=True] and
    [include_lowest=False]: position 0 and position [len(bins)] are masked
    as missing, any other position [i] is labelled [(bins[i-1], bins[i]]]. *)
Definition cut (bins : list Z) (x : Z) : option Interval :=
  let ids := searchsorted_left bins x in
  if decide (ids = length bins ∨ ids = 0%nat) then None
  else
    l ← bins !! (ids - 1)%nat;
    r ← bins !! ids;
    Some {| left_edge := l; right_edge := r |}.

(** The bin edges of line 169. *)
Definition bins : list Z := range 1930 2060 20.

(** A frame together with its ["score"] column, whose cells are bins and
    not numbers.  The column is kept beside the numeric columns, so that the
    label ["score"] itself is outside what is modelled: the weather variable
    is one of [WEATHER_VARS] (lines 85-107), none of which is ["score"]. *)
Record Scored : Type := {
  frame : DataFrame float;
  score : list (option Interval)
}.

(** [select_df.assign(score=pd.cut(select_df.index.year, bins=...))] *)
Definition assign_score (select_df : DataFrame float) : Scored :=
  {| frame := select_df; score := cut bins <$> (year <$> index select_df) |}.

(** A column of a frame with its index: a pandas [Series]. *)
Definition Series : Type := list (date * float).

(** The number a row holds under a column label; a row shorter than the
    header reads as missing there. *)
Definition cell_value (cols : list string) (cells : list float)
    (label : string) : float :=
  default NaN (cell_at cols cells label).

(** [row[label]]: [KeyError] for a label that is no column. *)
Definition row_getitem (cols : list string) (cells : list float)
    (label : string) : result float :=
  if decide (label ∈ cols) then Ok (cell_value cols cells label)
  else Raise KeyError.

(** [df[label]] *)
Definition getitem (df : DataFrame float) (label : string) : result Series :=
  if decide (label ∈ columns df) then
    Ok ((λ r : date * list float,
           (r.1, cell_value (columns df) r.2 label)) <$> rows df)
  else Raise KeyError.

(** [.dropna(subset=[label])] on the frame that carries the score column *)
Definition dropna_subset (label : string) (s : Scored) : result Scored :=
  col ← getitem (frame s) label;
  let mask := (λ c : date * float, notna c.2) <$> col in
  Ok {| frame := loc mask (frame s); score := boolean_index mask (score s) |}.

(** [df.iloc[-1]] *)
Definition iloc_last {A} (df : DataFrame A) : result (date * list A) :=
  match last (rows df) with
  | Some r => Ok r
  | None => Raise IndexError
  end.

(** [.item()] *)
Definition item {A} (l : list A) : result A :=
  match l with
  | [x] => Ok x
  | _ => Raise ValueError
  end.

(** *** Reductions of a series

    pandas' reductions skip missing values ([skipna=True]). *)

(** The present values of a series, with their index labels. *)
Definition present (s : Series) : list (date * Q) :=
  omap (λ r : date * float,
          match r.2 with
          | Num q => Some (r.1, q)
          | NaN => None
          end) s.

Definition Qsum (l : list Q) : Q := foldr Qplus 0%Q l.

Definition Qlen {A} (l : list A) : Q := inject_Z (Z.of_nat (length l)).

(** [s.mean()], as the exact quotient; pandas rounds the sum and the
    quotient to the precision of the column. *)
Definition mean (s : Series) : float :=
  match snd <$> present s with
  | [] => NaN
  | xs => Num (Qsum xs / Qlen xs)
  end.

(** [s.min()] and [s.max()] *)
Definition series_min (s : Series) : float :=
  match snd <$> present s with
  | [] => NaN
  | x :: xs => Num (foldl Qmin x xs)
  end.

Definition series_max (s : Series) : float :=
  match snd <$> present s with
  | [] => NaN
  | x :: xs => Num (foldl Qmax x xs)
  end.

(** numpy's [argmin] and [argmax] scan from the front and keep the first
    position of the extreme: a later element replaces the best so far only
    when it is strictly smaller (larger). *)
Fixpoint argmin_from (best : date * Q) (l : list (date * Q)) : date * Q :=
  match l with
  | [] => best
  | r :: l' => argmin_from (if Qlt_le_dec r.2 best.2 then r else best) l'
  end.

Fixpoint argmax_from (best : date * Q) (l : list (date * Q)) : date * Q :=
  match l with
  | [] => best
  | r :: l' => argmax_from (if Qlt_le_dec best.2 r.2 then r else best) l'
  end.

(** [s.idxmin()] and [s.idxmax()]: the index label at the first position of
    the extreme; [ValueError] on an empty sequence. *)
Definition idxmin (s : Series) : result date :=
  match present s with
  | [] => Raise ValueError
  | r :: l => Ok (argmin_from r l).1
  end.

Definition idxmax (s : Series) : result date :=
  match present s with
  | [] => Raise ValueError
  | r :: l => Ok (argmax_from r l).1
  end.

Fixpoint insert_sorted (x : Q) (l : list Q) : list Q :=
  match l with
  | [] => [x]
  | y :: l' => if Qle_bool x y then x :: l else y :: insert_sorted x l'
  end.

Definition sort_values (l : list Q) : list Q := foldr insert_sorted [] l.

(** [s.median()]: the middle of the sorted present values, the mean of the
    two middle ones when their number is even. *)
Definition median (s : Series) : float :=
  let xs := sort_values (snd <$> present s) in
  let n := length xs in
  match n with
  | O => NaN
  | _ =>
      if Nat.even n then
        Num ((nth (n / 2 - 1) xs 0 + nth (n / 2) xs 0) / 2)%Q
      else Num (nth (n / 2) xs 0%Q)
  end.

(** [a < score], element by element; a comparison with a missing value is
    false. *)
Definition lt_scalar (a : list float) (score : Q) : list bool :=
  (λ x, match x with
        | Num q => if Qlt_le_dec q score then true else false
        | NaN => false
        end) <$> a.

(** [np.count_nonzero] on booleans *)
Definition count_nonzero (mask : list bool) : nat :=
  length (filter (λ b, b = true) mask).

(** [scipy.stats.percentileofscore(a, score, kind="strict")], as in the
    SciPy releases before 1.9: a missing score gives a missing result, an
    empty [a] gives 100, and otherwise the result is
    [np.count_nonzero(a < score) / n * 100].  ([plot_data] never reaches the
    first two cases.)  This is the exact value of that expression;
    [percentileofscore_strict_double] below is the double it evaluates
    to. *)
Definition percentileofscore_strict (a : list float) (score : float) : float :=
  match score with
  | NaN => NaN
  | Num sc =>
      match a with
      | [] => Num 100
      | _ =>
          Num (inject_Z (Z.of_nat (count_nonzero (lt_scalar a sc))) / Qlen a
               * 100)%Q
      end
  end.

(** An integer as a double. *)
Definition float_of_Z (z : Z) : PrimFloat.float :=
  PrimFloat.of_uint63 (Uint63.of_Z z).

(** The same call as [percentileofscore_strict], evaluated as the program
    evaluates it: the count and the length are integers, their quotient is a
    double, and so is its product with 100. *)
Definition percentileofscore_strict_double (a : list float) (score : float)
    : PrimFloat.float :=
  match score with
  | NaN => PrimFloat.nan
  | Num sc =>
      match a with
      | [] => float_of_Z 100
      | _ =>
          PrimFloat.mul
            (PrimFloat.div
               (float_of_Z (Z.of_nat (count_nonzero (lt_scalar a sc))))
               (float_of_Z (Z.of_nat (length a))))
            (float_of_Z 100)
      end
  end.

(** The numbers [plot_data] hands to the display: the title's count of
    years and station label (the catalog's name, which the title shows
    through [str.title()]), the highlighted value, the six indicator values
    with the years in their captions, and the score column of the density
    plot.  [percentile_double] is the percentile as line 255 computes it,
    [percentile] its exact value. *)
Record Stats : Type := {
  station_label : string;
  years : nat;
  weather_date : float;
  weather_average : float;
  min_ : float;
  min_idx : date;
  max_ : float;
  max_idx : date;
  avg : float;
  median_ : float;
  percentile : float;
  percentile_double : PrimFloat.float;
  percentile_year : Z;
  kde_by : list (option Interval)
}.

Section Plot.

(** [load_station_df(network)] (lines 288-291): the station table of a
    network, as rows of ([stid], [station_name]), or the exception the
    download raised. *)
Variable load_station_df : string → result (list (string * string)).

(** In source order: lines 167-171 (score column, rows without the variable
    dropped), 173-175 (station label, the variable's series), 185 (the value
    to highlight), 188, 209-210, 219-220, 229, 238 (the reductions) and 255
    (the percentile).  The calls that only build display objects (hvplot,
    holoviews and panel widgets) are left out.  The catalog query of line
    173, [query(f"stid == '{station}'")], is the comparison of [stid] with
    the station text, which holds for the station codes the widget offers
    (letters and digits); a text with a quote in it is outside what is
    modelled. *)
Definition plot_data (d : date) (network station : string)
    (select_df : DataFrame float) (weather_var : string) : result Stats :=
  select_df ← dropna_subset weather_var (assign_score select_df);
  station_df ← load_station_df network;
  station_label ← item (snd <$> filter (λ r, r.1 = station) station_df);
  weather_df ← getitem (frame select_df) weather_var;
  last_row ← iloc_last (frame select_df);
  weather_date ← row_getitem (columns (frame select_df)) last_row.2 weather_var;
  let weather_average := mean weather_df in
  let min := series_min weather_df in
  min_idx ← idxmin weather_df;
  let max := series_max weather_df in
  max_idx ← idxmax weather_df;
  let avg := mean weather_df in
  let median := median weather_df in
  let percentile := percentileofscore_strict (snd <$> weather_df) weather_date in
  let percentile_double :=
    percentileofscore_strict_double (snd <$> weather_df) weather_date in
  Ok {| station_label := station_label;
        years := length weather_df;
        weather_date := weather_date;
        weather_average := weather_average;
        min_ := min;
        min_idx := min_idx;
        max_ := max;
        max_idx := max_idx;
        avg := avg;
        median_ := median;
        percentile := percentile;
        percentile_double := percentile_double;
        percentile_year := year d;
        kde_by := score select_df |}.

End Plot.

(** ** pn.cache (lines 109, 119, 143, 288) *)

(** The memo table panel keeps for one decorated function: the returned
    values under the digest of the call's arguments.  [calls] counts the
    runs of the decorated function's body; the program does not read it. *)
Record memo (V : Type) : Type := Memo {
  entries : gmap string V;
  calls : nat
}.
Arguments Memo {V} entries calls.
Arguments entries {V} m.
Arguments calls {V} m.

Definition empty_memo {V} : memo V := Memo ∅ 0.

Section Cache.

Context {K V : Type}.

(** panel's digest of the arguments of a call; it hashes a frame by its
    content. *)
Variable hash : K → string.

(** A call of the decorated function: a digest found in the table returns
    the stored value and leaves the body alone; otherwise the body runs, and
    its value is stored when it returns one.  With panel's defaults
    ([max_items=None], [ttl=None]) no entry is ever evicted. *)
Definition cached (func : K → result V) (args : K) (m : memo V)
    : result V * memo V :=
  match entries m !! hash args with
  | Some ret => (Ok ret, m)
  | None =>
      match func args with
      | Ok ret => (Ok ret, Memo (<[hash args := ret]> (entries m)) (S (calls m)))
      | Raise e => (Raise e, Memo (entries m) (S (calls m)))
      end
  end.

End Cache.

(** ** load_data (lines 119-125) and update_dashboard (lines 279-285) *)

Definition DATA_URL_FMT (network station : string) (d : date) : string :=
  "https://mesonet.agron.iastate.edu/"
  +:+ "cgi-bin/request/daily.py?"
  +:+ "network=" +:+ network +:+ "&stations=" +:+ station +:+ "&"
  +:+ "year1=1928&month1=1&day1=1&"
  +:+ "year2=" +:+ pretty (year d) +:+ "&month2=" +:+ pretty (month d)
  +:+ "&day2=" +:+ pretty (day d).

(** The memo tables of the two cached stages of [update_dashboard]. *)
Record Session : Type := {
  load_data_memo : memo (DataFrame obj);
  select_data_memo : memo (DataFrame float)
}.

Section Dashboard.

Variable parse_float : string → option Q.
Variable float32 : Q → Q.

(** [pd.read_csv(url, parse_dates=True, index_col="day")]: the table behind
    a URL, or the exception of a failed download or parse. *)
Variable read_csv : string → result (DataFrame obj).
Variable load_station_df : string → result (list (string * string)).

(** The digests of the arguments of the two cached stages. *)
Variable hash_load : date * string * string → string.
Variable hash_select : date * DataFrame float → string.

(** The body of [load_data]. *)
Definition load_data (args : date * string * string) : result (DataFrame obj) :=
  let '(d, network, station) := args in
  read_csv (DATA_URL_FMT network station d).

Definition update_dashboard (d : date) (network station weather_var : string)
    (s : Session) : result Stats * Session :=
  let '(df, m1) :=
    cached hash_load load_data (d, network, station) (load_data_memo s) in
  let s1 := {| load_data_memo := m1; select_data_memo := select_data_memo s |} in
  match df ≫= preprocess_data parse_float float32 with
  | Raise e => (Raise e, s1)
  | Ok preprocess_df =>
      let '(select_df, m2) :=
        cached hash_select
          (λ args : date * DataFrame float, Ok (select_data args.1 args.2))
          (d, preprocess_df) (select_data_memo s1) in
      let s2 := {| load_data_memo := m1; select_data_memo := m2 |} in
      (select_df ≫= λ select_df,
         plot_data load_station_df d network station select_df weather_var,
       s2)
  end.

End Dashboard.

(** ** The vocabulary of the specification *)

(** The variable series of a slice: the rows where the variable is present,
    each with its date. *)
Definition variable_series (df : DataFrame float) (label : string)
    : list (date * Q) :=
  omap (λ r : date * list float,
          match cell_at (columns df) r.2 label with
          | Some (Num q) => Some (r.1, q)
          | _ => None
          end) (rows df).

(** The number of values strictly less than a target. *)
Fixpoint count_strictly_less (xs : list Q) (target : Q) : nat :=
  match xs with
  | [] => O
  | x :: xs' =>
      match x ?= target with
      | Lt => S (count_strictly_less xs' target)
      | _ => count_strictly_less xs' target
      end%Q
  end.

(** Two dates fall on the same calendar day of the year. *)
Definition same_day (d : date) (r : date) : Prop :=
  month r = month d ∧ day r = day d.

#[global] Instance same_day_dec d r : Decision (same_day d r).
Proof. unfold same_day. apply _. Defined.

(** The order of the rows of a series by their year. *)
Definition by_year : relation (date * Q) := λ a b, year a.1 ≤ year b.1.


(** ** Data for the examples *)

(** A numeric parser for the examples: it reads unsigned decimal integers
    and rejects everything else. *)
Fixpoint parse_digits_from (acc : Z) (s : string) : option Z :=
  match s with
  | EmptyString => Some acc
  | String c s' =>
      let n := Z.of_N (Ascii.N_of_ascii c) in
      if decide (48 ≤ n ≤ 57) then parse_digits_from (10 * acc + (n - 48)) s'
      else None
  end.

Definition parse_digits (s : string) : option Q :=
  match s with
  | EmptyString => None
  | _ => inject_Z <$> parse_digits_from 0 s
  end.

(** No rounding: the numbers of the examples are small integers. *)
Definition no_rounding : Q → Q := λ q, q.

(** A station table with one station. *)
Definition one_station : string → result (list (string * string)) :=
  λ _, Ok [("DEN", "DENVER INTL AIRPORT")].

Definition raw_table : DataFrame obj :=
  Frame ["station"; "max_temp_f"; "precip_in"]
        [ (Date 2022 3 5, [OStr "DEN"; ONum 60; OStr "M"]);
          (Date 2023 3 5, [OStr "DEN"; OStr "71"; ONum 0]) ].

Definition raw_table_no_station : DataFrame obj :=
  Frame ["max_temp_f"; "precip_in"]
        [ (Date 2022 3 5, [ONum 60; OStr "M"]);
          (Date 2023 3 5, [OStr "71"; ONum 0]) ].

Definition raw_table_no_station_2 : DataFrame obj :=
  Frame ["max_temp_f"] [ (Date 2023 3 5, [ONum 71]) ].

(** A cleaned table over three days of two years. *)
Definition cleaned_table : DataFrame float :=
  Frame ["max_temp_f"]
        [ (Date 2022 3 4, [Num 55]); (Date 2022 3 5, [Num 60]);
          (Date 2022 4 5, [Num 66]); (Date 2023 3 4, [Num 58]);
          (Date 2023 3 5, [Num 71]) ].

(** The series of the percentile example, 50, 60, 70, 80, 90, with the 70
    of the target year in the last row. *)
Definition slice_50_90 : DataFrame float :=
  Frame ["max_temp_f"]
        [ (Date 2019 3 5, [Num 50]); (Date 2020 3 5, [Num 60]);
          (Date 2021 3 5, [Num 80]); (Date 2022 3 5, [Num 90]);
          (Date 2023 3 5, [Num 70]) ].

(** The series of the tie example: 1990: 32, 1995: 32, 2000: 50. *)
Definition slice_tie : DataFrame float :=
  Frame ["max_temp_f"]
        [ (Date 1990 3 5, [Num 32]); (Date 1995 3 5, [Num 32]);
          (Date 2000 3 5, [Num 50]) ].

(** The rows of the tie example in another order. *)
Definition slice_tie_unordered : DataFrame float :=
  Frame ["max_temp_f"]
        [ (Date 1995 3 5, [Num 32]); (Date 1990 3 5, [Num 32]);
          (Date 2000 3 5, [Num 50]) ].

(** A slice of twenty years with the readings 1 to 20, the 12 in the last
    row: eleven readings lie below it. *)
Definition slice_20_years : DataFrame float :=
  Frame ["max_temp_f"]
        [ (Date 2004 3 5, [Num 1]); (Date 2005 3 5, [Num 2]); (Date 2006 3 5, [Num 3]);
          (Date 2007 3 5, [Num 4]); (Date 2008 3 5, [Num 5]); (Date 2009 3 5, [Num 6]);
          (Date 2010 3 5, [Num 7]); (Date 2011 3 5, [Num 8]); (Date 2012 3 5, [Num 9]);
          (Date 2013 3 5, [Num 10]); (Date 2014 3 5, [Num 11]); (Date 2015 3 5, [Num 13]);
          (Date 2016 3 5, [Num 14]); (Date 2017 3 5, [Num 15]); (Date 2018 3 5, [Num 16]);
          (Date 2019 3 5, [Num 17]); (Date 2020 3 5, [Num 18]); (Date 2021 3 5, [Num 19]);
          (Date 2022 3 5, [Num 20]); (Date 2023 3 5, [Num 12]) ].

(** A slice whose row of the target year 2023 has no reading yet. *)
Definition slice_latest_missing : DataFrame float :=
  Frame ["max_temp_f"]
        [ (Date 2021 3 5, [Num 50]); (Date 2022 3 5, [Num 60]);
          (Date 2023 3 5, [NaN]) ].

(** A slice with no rows. *)
Definition slice_empty : DataFrame float := Frame ["max_temp_f"] [].

(** A slice that reaches back to the first year the program requests. *)
Definition slice_1928 : DataFrame float :=
  Frame ["max_temp_f"]
        [ (Date 1928 3 5, [Num 41]); (Date 1950 3 5, [Num 47]);
          (Date 2023 3 5, [Num 71]) ].

(** The digest of a [load_data] call in the examples: the URL it requests. *)
Definition url_digest (args : date * string * string) : string :=
  let '(d, network, station) := args in DATA_URL_FMT network station d.

(** A source that serves [raw_table] at every URL, and a source that is
    down. *)
Definition read_csv_up : string → result (DataFrame obj) := λ _, Ok raw_table.

Definition read_csv_down : string → result (DataFrame obj) :=
  λ _, Raise (Other "HTTPError").

(** ** startApplication (lines 11-39 and 333-349): the status messages *)

(** JavaScript's [s.split(sep)] for a separator of one character. *)
Fixpoint js_split (sep : Ascii.ascii) (s : string) : list string :=
  match s with
  | EmptyString => [EmptyString]
  | String c s' =>
      if decide (c = sep) then EmptyString :: js_split sep s'
      else
        match js_split sep s' with
        | [] => [String c EmptyString]
        | h :: t => String c h :: t
        end
  end.

(** [s.endsWith(suffix)] *)
Definition endsWith (s suffix : string) : bool :=
  bool_decide (String.length suffix ≤ String.length s)%nat
  && bool_decide
       (String.substring (String.length s - String.length suffix)
          (String.length suffix) s = suffix).

(** The package name shown while a package installs (lines 20-25): for a
    wheel, [pkg.split('/').slice(-1)[0].split('-')[0]]. *)
Definition pkg_name (pkg : string) : string :=
  if endsWith pkg ".whl" then
    let file := default EmptyString (last (js_split "/"%char pkg)) in
    default EmptyString (head (js_split "-"%char file))
  else pkg.

(** Line 18. *)
Definition env_spec : list string :=
  [ "https://cdn.holoviz.org/panel/0.14.2/dist/wheels/bokeh-2.4.3-py3-none-any.whl";
    "https://cdn.holoviz.org/panel/0.14.2/dist/wheels/panel-0.14.2-py3-none-any.whl";
    "pyodide-http==0.1.0"; "holoviews>=1.15.1"; "holoviews>=1.15.1";
    "hvplot"; "pandas"; "scipy" ].

(** The status message after a failed run (lines 342-347):
    [tblines[tblines.length-2]], which is [undefined] ([None]) when the
    traceback has a single line. *)
Definition traceback_msg (traceback : string) : option string :=
  let tblines := js_split "010"%char traceback in
  let i := Z.of_nat (length tblines) - 2 in
  if decide (i < 0) then None else tblines !! Z.to_nat i.

(** Whether a character occurs in a string. *)
Fixpoint occurs (c : Ascii.ascii) (s : string) : Prop :=
  match s with
  | EmptyString => False
  | String c' s' => c' = c ∨ occurs c s'
  end.

(** ** More data for the examples *)

(** A session with nothing cached. *)
Definition empty_session : Session :=
  {| load_data_memo := empty_memo; select_data_memo := empty_memo |}.

(** A digest of a [select_data] call for the examples: the date and the
    numbers of columns and rows of the frame. *)
Definition frame_digest (args : date * DataFrame float) : string :=
  pretty (year args.1) +:+ "-" +:+ pretty (month args.1) +:+ "-"
  +:+ pretty (day args.1) +:+ ":"
  +:+ pretty (Z.of_nat (length (columns args.2))) +:+ "x"
  +:+ pretty (Z.of_nat (length (rows args.2))).

(** A source that serves a table without the station column. *)
Definition read_csv_no_station : string → result (DataFrame obj) :=
  λ _, Ok raw_table_no_station.

(** A slice in which no row has a reading of the variable. *)
Definition slice_all_missing : DataFrame float :=
  Frame ["max_temp_f"]
        [ (Date 2022 3 5, [NaN]); (Date 2023 3 5, [NaN]) ].

(** A raw table in the order of its dates. *)
Definition raw_table_days : DataFrame obj :=
  Frame ["station"; "max_temp_f"]
        [ (Date 2022 3 4, [OStr "DEN"; ONum 55]);
          (Date 2022 3 5, [OStr "DEN"; ONum 60]);
          (Date 2023 3 4, [OStr "DEN"; OStr "M"]);
          (Date 2023 3 5, [OStr "DEN"; OStr "71"]) ].

(** * Properties *)

(** ** Cleaning *)

Section CleanFacts.

Context {A : Type}.
Implicit Types (cols labels : list string) (cells : list A).

Lemma cell_at_nil_r cols label : cell_at cols (@nil A) label = None.
Proof. by destruct cols. Qed.

Lemma cell_at_drop_cells labels cols cells label :
  label ∉ labels →
  cell_at (filter (λ c, c ∉ labels) cols) (drop_cells labels cols cells) label
  = cell_at cols cells label.
Proof.
  intros Hl. revert cells.
  induction cols as [|c cols IH]; intros [|x cells]; simpl; try done.
  - by rewrite cell_at_nil_r.
  - rewrite filter_cons.
    destruct (decide (c ∈ labels)) as [Hin|Hout].
    + rewrite decide_False by tauto.
      rewrite decide_False by (intros ->; done). apply IH.
    + rewrite decide_True by done. simpl.
      destruct (decide (c = label)); [done|apply IH].
Qed.

Lemma filter_not_singleton cols (l : string) :
  filter (λ c, c ∉ [l]) cols = filter (λ c, c ≠ l) cols.
Proof.
  induction cols as [|c cols IH]; [done|].
  rewrite !filter_cons, IH.
  destruct (decide (c = l)) as [->|Hne].
  - rewrite decide_False by (intros H; apply H; left).
    by rewrite decide_False by (intros H; by apply H).
  - rewrite decide_True by (by rewrite list_elem_of_singleton).
    by rewrite decide_True by done.
Qed.

End CleanFacts.

Lemma cell_at_fmap {A B} (f : A → B) cols (cells : list A) label :
  cell_at cols (f <$> cells) label = f <$> cell_at cols cells label.
Proof.
  revert cells. induction cols as [|c cols IH]; intros [|x cells]; simpl; try done.
  destruct (decide (c = label)); [done|apply IH].
Qed.

Lemma drop_Ok {A} labels (df : DataFrame A) :
  labels ⊆ columns df →
  drop_columns labels df
  = Ok (Frame (filter (λ c, c ∉ labels) (columns df))
              ((λ r : date * list A,
                  (r.1, drop_cells labels (columns df) r.2)) <$> rows df)).
Proof. intros H. unfold drop_columns. by rewrite decide_True. Qed.

Lemma drop_KeyError {A} labels (df : DataFrame A) :
  ¬ labels ⊆ columns df → drop_columns labels df = Raise KeyError.
Proof. intros H. unfold drop_columns. by rewrite decide_False. Qed.

Lemma singleton_subseteq (l : string) (cols : list string) :
  [l] ⊆ cols ↔ l ∈ cols.
Proof.
  split.
  - intros H. apply H. left.
  - intros H x Hx. apply list_elem_of_singleton in Hx. by subst.
Qed.

(** Whether the cleaning stage returns is decided by the header alone. *)
Lemma preprocess_data_is_ok pf f32 (df : DataFrame obj) :
  is_ok (preprocess_data pf f32 df) = bool_decide ("station" ∈ columns df).
Proof.
  unfold preprocess_data.
  destruct (decide ("station" ∈ columns df)) as [Hin|Hout].
  - rewrite drop_Ok by (by apply singleton_subseteq).
    by rewrite bool_decide_eq_true_2.
  - rewrite drop_KeyError by (by rewrite singleton_subseteq).
    by rewrite bool_decide_eq_false_2.
Qed.

(** C4 (as amended): for every raw table that has a column named "station",
    the cleaning stage returns a table: the station column is gone and the
    other columns stay, the rows keep their dates and their order, and every
    remaining cell is the raw cell coerced to a number and narrowed by the
    32-bit rounding; in particular a cell whose text fails numeric parsing
    becomes the missing marker, and no cell content makes the stage raise. *)
Theorem preprocess_data_cleans pf f32 (df : DataFrame obj) :
  "station" ∈ columns df →
  ∃ cleaned,
    preprocess_data pf f32 df = Ok cleaned
    ∧ columns cleaned = filter (λ c, c ≠ "station") (columns df)
    ∧ index cleaned = index df
    ∧ ∀ i r, rows df !! i = Some r →
        ∃ r', rows cleaned !! i = Some r'
          ∧ r'.1 = r.1
          ∧ ∀ label, label ≠ "station" →
              cell_at (columns cleaned) r'.2 label
              = (λ o, astype_float32 f32 (to_numeric pf o))
                  <$> cell_at (columns df) r.2 label
              ∧ ∀ s, cell_at (columns df) r.2 label = Some (OStr s) →
                     pf s = None →
                     cell_at (columns cleaned) r'.2 label = Some NaN.
Proof.
  intros Hin. unfold preprocess_data.
  rewrite drop_Ok by (by apply singleton_subseteq).
  eexists. split; [reflexivity|]. simpl.
  split; [apply filter_not_singleton|].
  split.
  { unfold index, applymap. simpl. rewrite <- !list_fmap_compose.
    by apply list_fmap_ext. }
  intros i [dt cells] Hi.
  rewrite !list_lookup_fmap, Hi. simpl.
  eexists. split; [reflexivity|]. split; [done|].
  intros label Hne. simpl.
  assert (Hcell :
    cell_at (filter (λ c, c ∉ ["station"]) (columns df))
      (astype_float32 f32 <$> (to_numeric pf <$>
         drop_cells ["station"] (columns df) cells)) label
    = (λ o, astype_float32 f32 (to_numeric pf o))
        <$> cell_at (columns df) cells label).
  { rewrite !cell_at_fmap, cell_at_drop_cells
      by (by rewrite list_elem_of_singleton).
    by destruct (cell_at (columns df) cells label). }
  split; [exact Hcell|].
  intros s Hs Hpf. rewrite Hcell, Hs. simpl. by rewrite Hpf.
Qed.

Lemma preprocess_data_cleans_witness :
  ∃ cleaned,
    preprocess_data parse_digits no_rounding raw_table = Ok cleaned
    ∧ columns cleaned = ["max_temp_f"; "precip_in"]
    ∧ rows cleaned !! 0%nat = Some (Date 2022 3 5, [Num 60; NaN]).
Proof.
  destruct (preprocess_data_cleans parse_digits no_rounding raw_table)
    as (cleaned & Hok & Hcols & _ & _).
  { vm_compute. apply (proj2 (list_elem_of_In _ _)). left. reflexivity. }
  exists cleaned. split; [exact Hok|].
  vm_compute in Hok. injection Hok as <-. split; reflexivity.
Defined.

Lemma preprocess_data_not_total :
  preprocess_data parse_digits no_rounding raw_table_no_station = Raise KeyError
  ∧ ¬ ∃ cleaned,
        preprocess_data parse_digits no_rounding raw_table_no_station = Ok cleaned.
Proof.
  split; [reflexivity|]. intros [cleaned H]. vm_compute in H. discriminate.
Qed.

(** C10: a raw table without a column named "station" makes the cleaning
    stage raise (KeyError) instead of returning a table, while a table that
    has the column is cleaned whatever its cells hold. *)
Theorem preprocess_data_KeyError pf f32 (df : DataFrame obj) :
  "station" ∉ columns df →
  preprocess_data pf f32 df = Raise KeyError
  ∧ ∀ rows', is_ok (preprocess_data pf f32
                      (Frame ("station" :: columns df) rows')) = true.
Proof.
  intros Hout. split.
  - unfold preprocess_data.
    by rewrite drop_KeyError by (by rewrite singleton_subseteq).
  - intros rows'. rewrite preprocess_data_is_ok.
    apply bool_decide_eq_true_2. simpl. left.
Qed.

Lemma preprocess_data_KeyError_witness :
  preprocess_data parse_digits no_rounding raw_table_no_station_2 = Raise KeyError.
Proof.
  apply (preprocess_data_KeyError parse_digits no_rounding raw_table_no_station_2).
  vm_compute. intros H. apply list_elem_of_In in H.
  destruct H as [H|[]]. discriminate H.
Defined.

(** ** The day-of-year filter *)

Lemma boolean_index_fmap {A} (p : A → bool) (l : list A) :
  boolean_index (p <$> l) l = List.filter p l.
Proof.
  induction l as [|x l IH]; [done|]. csimpl. rewrite IH. by destruct (p x).
Qed.

Lemma mask_and_fmap {A} (p q : A → bool) (l : list A) :
  mask_and (p <$> l) (q <$> l) = (λ x, p x && q x) <$> l.
Proof. induction l as [|x l IH]; [done|]. csimpl. by f_equal. Qed.

Lemma filter_bool_decide {A} (p : A → bool) (P : A → Prop)
    `{∀ x, Decision (P x)} (l : list A) :
  (∀ x, p x = bool_decide (P x)) → List.filter p l = filter P l.
Proof.
  intros Hp. induction l as [|x l IH]; [done|].
  rewrite filter_cons. cbn [List.filter]. rewrite IH, Hp.
  destruct (decide (P x)).
  - by rewrite bool_decide_eq_true_2.
  - by rewrite bool_decide_eq_false_2.
Qed.

Lemma select_data_rows d (df : DataFrame float) :
  rows (select_data d df) = filter (λ r, same_day d r.1) (rows df).
Proof.
  unfold select_data, loc, eq_scalar, index. simpl.
  rewrite <- !list_fmap_compose, mask_and_fmap, boolean_index_fmap.
  apply filter_bool_decide. intros r. simpl.
  rewrite <- bool_decide_and. by apply bool_decide_ext.
Qed.

(** C5: for every cleaned table and target date, the day-of-year filter
    returns, under the same header and in their order, exactly the rows whose
    month and day equal the target's, whatever their year; it is a total
    function (no error), and its result has no rows when no row matches. *)
Theorem select_data_exact d (df : DataFrame float) :
  columns (select_data d df) = columns df
  ∧ rows (select_data d df) = filter (λ r, same_day d r.1) (rows df)
  ∧ (∀ r, r ∈ rows (select_data d df)
          ↔ r ∈ rows df ∧ month r.1 = month d ∧ day r.1 = day d)
  ∧ (∀ y, select_data (Date y (month d) (day d)) df = select_data d df)
  ∧ (rows (select_data d df) = []
     ↔ ∀ r, r ∈ rows df → ¬ (month r.1 = month d ∧ day r.1 = day d)).
Proof.
  split; [done|]. split; [apply select_data_rows|]. split; [|split].
  - intros r. rewrite select_data_rows, list_elem_of_filter.
    unfold same_day. tauto.
  - intros y. done.
  - rewrite select_data_rows. split.
    + intros Hnil r Hr Hday.
      assert (r ∈ filter (λ r, same_day d r.1) (rows df)) as Hin
        by (by apply list_elem_of_filter).
      rewrite Hnil in Hin. by apply not_elem_of_nil in Hin.
    + intros Hnone. induction (rows df) as [|r l IH]; [done|].
      rewrite filter_cons. rewrite decide_False.
      * apply IH. intros r' Hr'. apply Hnone. by right.
      * apply Hnone. left.
Qed.

(** ** The memo tables *)

Section CacheFacts.

Context {K V : Type} (hash : K → string).
Implicit Types (func : K → result V) (m : memo V).

(** A call never removes an entry. *)
Lemma cached_entry_persists func args m h v :
  entries m !! h = Some v → entries (cached hash func args m).2 !! h = Some v.
Proof.
  intros Hv. unfold cached.
  destruct (entries m !! hash args) as [ret|] eqn:Hm; [done|].
  destruct (func args) as [ret|e]; [|done]. simpl.
  destruct (decide (hash args = h)) as [<-|Hne]; [congruence|].
  by rewrite lookup_insert_ne.
Qed.

(** A call that returned a value left it in the table. *)
Lemma cached_Ok_stored func args m ret m' :
  cached hash func args m = (Ok ret, m') →
  entries m' !! hash args = Some ret.
Proof.
  unfold cached.
  destruct (entries m !! hash args) as [v|] eqn:Hm.
  - intros [= <- <-]. done.
  - destruct (func args) as [v|e]; intros [= <- <-]. simpl.
    apply lookup_insert_eq.
Qed.

(** A call on a stored digest returns the stored value and changes nothing:
    neither the table nor the count of runs of the body. *)
Lemma cached_stored func args m ret :
  entries m !! hash args = Some ret → cached hash func args m = (Ok ret, m).
Proof. intros Hm. unfold cached. by rewrite Hm. Qed.

(** C6: when a call of a cached stage has returned a value, a second call
    with the identical key returns that value again without running the
    stage's body: the result does not depend on what the body would compute
    now, and the memo table and its count of body runs are unchanged. *)
Theorem cached_twice func func' args m ret m' :
  cached hash func args m = (Ok ret, m') →
  cached hash func' args m' = (Ok ret, m')
  ∧ calls (cached hash func' args m').2 = calls m'.
Proof.
  intros H. apply cached_Ok_stored in H.
  rewrite (cached_stored func' args m' ret H). done.
Qed.

(** X13: A value that a call of a cached stage returned is returned again,
    without running the body, after any number of calls in between: no
    entry is evicted. *)
Lemma cached_later func args m ret m'
    (between : list ((K → result V) * K)) func' :
  cached hash func args m = (Ok ret, m') →
  let m'' := foldl (λ m c, (cached hash c.1 c.2 m).2) m' between in
  cached hash func' args m'' = (Ok ret, m'').
Proof.
  intros H. apply cached_Ok_stored in H. simpl.
  apply cached_stored. revert m' H.
  induction between as [|c between IH]; intros m' H; [done|].
  simpl. apply IH. by apply cached_entry_persists.
Qed.

End CacheFacts.

Lemma cached_twice_witness :
  let key := (Date 2023 3 5, "CO_ASOS", "DEN") in
  let m1 := (cached url_digest (load_data read_csv_up) key empty_memo).2 in
  cached url_digest (load_data read_csv_down) key m1 = (Ok raw_table, m1)
  ∧ calls m1 = 1%nat.
Proof.
  intros key m1.
  destruct (cached_twice url_digest (load_data read_csv_up)
              (load_data read_csv_down) key empty_memo raw_table m1)
    as [Hsecond _]; [reflexivity|].
  split; [exact Hsecond|reflexivity].
Defined.

(** ** The statistics of plot_data *)

Lemma boolean_index_fmap2 {A B} (p : A → bool) (f : A → B) (l : list A) :
  boolean_index (p <$> l) (f <$> l) = f <$> List.filter p l.
Proof.
  induction l as [|x l IH]; [done|]. csimpl. rewrite IH. by destruct (p x).
Qed.

(** The rows that [dropna] keeps, read as a series, are the variable series
    of the slice. *)
Lemma kept_series cols label (l : list (date * list float)) :
  (λ r : date * list float, (r.1, cell_value cols r.2 label))
    <$> List.filter (λ r, notna (cell_value cols r.2 label)) l
  = (λ p : date * Q, (p.1, Num p.2))
    <$> omap (λ r : date * list float,
                match cell_at cols r.2 label with
                | Some (Num q) => Some (r.1, q)
                | _ => None
                end) l.
Proof.
  induction l as [|r l IH]; [done|].
  unfold cell_value in *. simpl.
  destruct (cell_at cols r.2 label) as [[q|]|] eqn:E; simpl;
    rewrite ?E; simpl; [f_equal; exact IH | exact IH | exact IH].
Qed.

Lemma present_Num (vs : list (date * Q)) :
  present ((λ p : date * Q, (p.1, Num p.2)) <$> vs) = vs.
Proof.
  unfold present. induction vs as [|[dt q] vs IH]; [done|].
  csimpl. by rewrite IH.
Qed.

Lemma dropna_assign_score (df : DataFrame float) label :
  label ∈ columns df →
  let keep := λ r : date * list float, notna (cell_value (columns df) r.2 label) in
  dropna_subset label (assign_score df)
  = Ok {| frame := Frame (columns df) (List.filter keep (rows df));
          score := (λ r : date * list float, cut bins (year r.1))
                     <$> List.filter keep (rows df) |}.
Proof.
  intros Hin keep. unfold dropna_subset, assign_score, getitem, loc, index.
  simpl. rewrite decide_True by done. simpl.
  rewrite <- !list_fmap_compose.
  by rewrite boolean_index_fmap, boolean_index_fmap2.
Qed.

Lemma variable_series_dates (df : DataFrame float) label :
  let keep := λ r : date * list float, notna (cell_value (columns df) r.2 label) in
  fst <$> List.filter keep (rows df) = fst <$> variable_series df label.
Proof.
  intros keep.
  assert (H := kept_series (columns df) label (rows df)).
  apply (f_equal (fmap fst)) in H.
  rewrite <- !list_fmap_compose in H. exact H.
Qed.

Section PlotFacts.

Variable load_station_df : string → result (list (string * string)).

(** What [plot_data] returns on a slice whose variable series is not empty,
    in terms of that series. *)
Lemma plot_data_Ok d network station (df : DataFrame float) label
    sdf lbl r l dt q :
  label ∈ columns df →
  load_station_df network = Ok sdf →
  item (snd <$> filter (λ x, x.1 = station) sdf) = Ok lbl →
  variable_series df label = r :: l →
  last (r :: l) = Some (dt, q) →
  let s := (λ p : date * Q, (p.1, Num p.2)) <$> (r :: l) in
  plot_data load_station_df d network station df label
  = Ok {| station_label := lbl;
          years := length (r :: l);
          weather_date := Num q;
          weather_average := mean s;
          min_ := series_min s;
          min_idx := (argmin_from r l).1;
          max_ := series_max s;
          max_idx := (argmax_from r l).1;
          avg := mean s;
          median_ := median s;
          percentile := percentileofscore_strict (snd <$> s) (Num q);
          percentile_double :=
            percentileofscore_strict_double (snd <$> s) (Num q);
          percentile_year := year d;
          kde_by := (λ p : date * Q, cut bins (year p.1)) <$> (r :: l) |}.
Proof.
  intros Hin Hsdf Hitem Hvs Hlast s.
  unfold plot_data. rewrite dropna_assign_score by done. cbn [mbind result_bind].
  rewrite Hsdf. cbn [mbind result_bind]. rewrite Hitem. cbn [mbind result_bind].
  cbn [frame score].
  set (keep := λ r : date * list float, notna (cell_value (columns df) r.2 label)).
  assert (Hkept :
    (λ r : date * list float, (r.1, cell_value (columns df) r.2 label))
      <$> List.filter keep (rows df) = s).
  { unfold keep. rewrite kept_series. fold (variable_series df label).
    by rewrite Hvs. }
  unfold getitem. cbn [columns rows]. rewrite decide_True by done.
  cbn [mbind result_bind]. rewrite Hkept.
  assert (Hl : last (List.filter keep (rows df)) ≫= (λ r0,
             Some (r0.1, cell_value (columns df) r0.2 label))
           = Some (dt, Num q)).
  { change (last (List.filter keep (rows df)) ≫= _)
      with ((λ r : date * list float, (r.1, cell_value (columns df) r.2 label))
              <$> last (List.filter keep (rows df))).
    rewrite <- fmap_last, Hkept. unfold s. rewrite fmap_last, Hlast. done. }
  unfold iloc_last. cbn [rows].
  destruct (last (List.filter keep (rows df))) as [r0|]; [|done].
  cbn [mbind result_bind option_bind] in *. injection Hl as Hd Hq.
  unfold row_getitem. rewrite decide_True by done. cbn [mbind result_bind].
  rewrite Hq.
  unfold idxmin, idxmax.
  assert (Hp : present s = r :: l) by apply present_Num. rewrite !Hp.
  cbn [mbind result_bind]. f_equal. f_equal.
  - unfold s. by rewrite length_fmap.
  - assert (H := variable_series_dates df label). simpl in H. fold keep in H.
    rewrite Hvs in H.
    change ((λ r1 : date * list float, cut bins (year r1.1))
              <$> List.filter keep (rows df))
      with (((λ dt0, cut bins (year dt0)) ∘ fst) <$> List.filter keep (rows df)).
    rewrite list_fmap_compose, H, <- list_fmap_compose. done.
Qed.

End PlotFacts.

(** ** The percentile *)

Lemma count_nonzero_lt_scalar (xs : list Q) (target : Q) :
  count_nonzero (lt_scalar (Num <$> xs) target) = count_strictly_less xs target.
Proof.
  unfold count_nonzero, lt_scalar.
  induction xs as [|x xs IH]; [done|].
  csimpl. rewrite filter_cons.
  destruct (Qlt_le_dec x target) as [Hlt|Hge].
  - rewrite (proj1 (Qlt_alt x target) Hlt). rewrite decide_True by done.
    simpl. by rewrite IH.
  - rewrite decide_False by done. rewrite IH.
    destruct (x ?= target)%Q eqn:E; try done.
    exfalso. apply (Qlt_not_le x target); [|done]. by apply Qlt_alt.
Qed.


Lemma Qlen_pos {A} (l : list A) : l ≠ [] → (0 < Qlen l)%Q.
Proof.
  intros Hne. unfold Qlen. destruct l as [|x l]; [done|].
  unfold Qlt. simpl. lia.
Qed.



(** ** The empty slice and the highlighted value *)

Section PlotErrors.

Variable load_station_df : string → result (list (string * string)).

(** With no present value of the variable, the last-row access is out of
    bounds. *)
Lemma plot_data_no_value d network station (df : DataFrame float) label
    sdf lbl :
  label ∈ columns df →
  load_station_df network = Ok sdf →
  item (snd <$> filter (λ x, x.1 = station) sdf) = Ok lbl →
  variable_series df label = [] →
  plot_data load_station_df d network station df label = Raise IndexError.
Proof.
  intros Hin Hsdf Hitem Hvs.
  unfold plot_data. rewrite dropna_assign_score by done. cbn [mbind result_bind].
  rewrite Hsdf. cbn [mbind result_bind]. rewrite Hitem. cbn [mbind result_bind].
  cbn [frame]. unfold getitem. cbn [columns]. rewrite decide_True by done.
  cbn [mbind result_bind]. unfold iloc_last. cbn [rows].
  assert (H := variable_series_dates df label). simpl in H.
  rewrite Hvs in H. apply fmap_nil_inv in H. by rewrite H.
Qed.

(** C2 (as amended): for an empty slice that has the selected variable among
    its columns, and a station found in the catalog, the statistics stage
    fails with Python's IndexError, raised by the out-of-bounds access to the
    last row; the program has no EmptySliceError. *)
Theorem plot_data_empty_IndexError d network station (df : DataFrame float)
    label sdf lbl :
  rows df = [] →
  label ∈ columns df →
  load_station_df network = Ok sdf →
  item (snd <$> filter (λ x, x.1 = station) sdf) = Ok lbl →
  plot_data load_station_df d network station df label = Raise IndexError.
Proof.
  intros Hrows Hin Hsdf Hitem. eapply plot_data_no_value; eauto.
  unfold variable_series. by rewrite Hrows.
Qed.

End PlotErrors.

Lemma plot_data_empty_IndexError_witness :
  plot_data one_station (Date 2024 2 29) "CO_ASOS" "DEN" slice_empty
    "max_temp_f" = Raise IndexError.
Proof.
  apply (plot_data_empty_IndexError one_station (Date 2024 2 29) "CO_ASOS"
           "DEN" slice_empty "max_temp_f"
           [("DEN", "DENVER INTL AIRPORT")] "DENVER INTL AIRPORT").
  - reflexivity.
  - vm_compute. apply (proj2 (list_elem_of_In _ _)). left. reflexivity.
  - reflexivity.
  - reflexivity.
Defined.

(** No row of [cleaned_table] falls on a 29th of February: the slice is
    empty, and [plot_data] raises IndexError, not EmptySliceError. *)
Lemma plot_data_no_EmptySliceError :
  let slice := select_data (Date 2024 2 29) cleaned_table in
  rows slice = []
  ∧ plot_data one_station (Date 2024 2 29) "CO_ASOS" "DEN" slice "max_temp_f"
    = Raise IndexError
  ∧ plot_data one_station (Date 2024 2 29) "CO_ASOS" "DEN" slice "max_temp_f"
    ≠ Raise (Other "EmptySliceError").
Proof. repeat split. discriminate. Qed.

(** C1 (the program departs from it): on a slice whose row of the target
    year 2023 has no reading of the variable, the value [plot_data]
    highlights and ranks under the caption of 2023 is 60, the reading of the
    row of 2022, the last row left after the rows without a reading are
    dropped; no row of the year 2023 holds that value. *)
Theorem plot_data_highlights_last_row :
  ∃ stats,
    plot_data one_station (Date 2023 3 5) "CO_ASOS" "DEN" slice_latest_missing
      "max_temp_f" = Ok stats
    ∧ percentile_year stats = 2023
    ∧ weather_date stats = Num 60
    ∧ (Date 2022 3 5, [Num 60]) ∈ rows slice_latest_missing
    ∧ (Date 2023 3 5, [NaN]) ∈ rows slice_latest_missing
    ∧ ∀ r, r ∈ rows slice_latest_missing → year r.1 = 2023 →
           cell_value (columns slice_latest_missing) r.2 "max_temp_f"
           ≠ weather_date stats.
Proof.
  eexists. split; [reflexivity|]. cbn [percentile_year weather_date].
  split; [done|]. split; [done|].
  split; [apply (proj2 (list_elem_of_In _ _)); simpl; tauto|].
  split; [apply (proj2 (list_elem_of_In _ _)); simpl; tauto|].
  intros r Hr Hy. apply list_elem_of_In in Hr. simpl in Hr.
  destruct Hr as [<-|[<-|[<-|[]]]]; simpl in Hy; try discriminate Hy.
  vm_compute. discriminate.
Qed.

(** ** Minimum and maximum with their years *)

(** The scan keeps the first position of the least value: what stands in
    front of the result is strictly greater, what stands behind is not
    less. *)
Lemma argmin_from_split (l : list (date * Q)) : ∀ best l1 l2,
  Forall (λ x, (best.2 < x.2)%Q) l1 →
  Forall (λ x, (best.2 <= x.2)%Q) l2 →
  ∃ l1' l2',
    l1 ++ best :: l2 ++ l = l1' ++ argmin_from best l :: l2'
    ∧ Forall (λ x, ((argmin_from best l).2 < x.2)%Q) l1'
    ∧ Forall (λ x, ((argmin_from best l).2 <= x.2)%Q) l2'.
Proof.
  induction l as [|r l IH]; intros best l1 l2 H1 H2.
  - exists l1, l2. by rewrite app_nil_r.
  - simpl. destruct (Qlt_le_dec r.2 best.2) as [Hlt|Hge].
    + destruct (IH r (l1 ++ best :: l2) []) as (l1' & l2' & Heq & H1' & H2').
      * apply Forall_app. split.
        { eapply Forall_impl; [exact H1|]. intros x Hx.
          by apply Qlt_trans with best.2. }
        constructor; [done|].
        eapply Forall_impl; [exact H2|]. intros x Hx.
        by apply Qlt_le_trans with best.2.
      * constructor.
      * exists l1', l2'. split; [|done]. rewrite <- Heq.
        by rewrite <- app_assoc.
    + destruct (IH best l1 (l2 ++ [r])) as (l1' & l2' & Heq & H1' & H2').
      * done.
      * apply Forall_app. split; [done|]. by constructor.
      * exists l1', l2'. split; [|done]. rewrite <- Heq.
        by rewrite <- app_assoc.
Qed.

Lemma argmax_from_split (l : list (date * Q)) : ∀ best l1 l2,
  Forall (λ x, (x.2 < best.2)%Q) l1 →
  Forall (λ x, (x.2 <= best.2)%Q) l2 →
  ∃ l1' l2',
    l1 ++ best :: l2 ++ l = l1' ++ argmax_from best l :: l2'
    ∧ Forall (λ x, (x.2 < (argmax_from best l).2)%Q) l1'
    ∧ Forall (λ x, (x.2 <= (argmax_from best l).2)%Q) l2'.
Proof.
  induction l as [|r l IH]; intros best l1 l2 H1 H2.
  - exists l1, l2. by rewrite app_nil_r.
  - simpl. destruct (Qlt_le_dec best.2 r.2) as [Hlt|Hge].
    + destruct (IH r (l1 ++ best :: l2) []) as (l1' & l2' & Heq & H1' & H2').
      * apply Forall_app. split.
        { eapply Forall_impl; [exact H1|]. intros x Hx.
          by apply Qlt_trans with best.2. }
        constructor; [done|].
        eapply Forall_impl; [exact H2|]. intros x Hx.
        by apply Qle_lt_trans with best.2.
      * constructor.
      * exists l1', l2'. split; [|done]. rewrite <- Heq.
        by rewrite <- app_assoc.
    + destruct (IH best l1 (l2 ++ [r])) as (l1' & l2' & Heq & H1' & H2').
      * done.
      * apply Forall_app. split; [done|]. by constructor.
      * exists l1', l2'. split; [|done]. rewrite <- Heq.
        by rewrite <- app_assoc.
Qed.

(** The row [idxmin] names: it is a row of the series, no row has a smaller
    value, and among the rows of equal value it comes first, so that in a
    series ordered by year its year is the earliest. *)
Lemma argmin_from_first (r : date * Q) (l : list (date * Q)) :
  let m := argmin_from r l in
  m ∈ r :: l
  ∧ (∀ x, x ∈ r :: l → (m.2 <= x.2)%Q)
  ∧ (StronglySorted by_year (r :: l) →
     ∀ x, x ∈ r :: l → (x.2 == m.2)%Q → year m.1 ≤ year x.1).
Proof.
  intros m.
  destruct (argmin_from_split l r [] []) as (l1 & l2 & Heq & H1 & H2);
    [constructor..|].
  simpl in Heq. fold m in Heq, H1, H2. rewrite Heq.
  rewrite Forall_forall in H1. rewrite Forall_forall in H2.
  split; [|split].
  - apply elem_of_app. right. left.
  - intros x Hx. apply elem_of_app in Hx as [Hx|Hx].
    + apply Qlt_le_weak. by apply H1.
    + apply elem_of_cons in Hx as [->|Hx]; [apply Qle_refl|by apply H2].
  - intros Hsorted x Hx Htie. apply elem_of_app in Hx as [Hx|Hx].
    + exfalso. apply H1 in Hx. rewrite Htie in Hx. by apply Qlt_irrefl in Hx.
    + apply elem_of_cons in Hx as [->|Hx]; [lia|].
      apply StronglySorted_app_1_r, StronglySorted_cons in Hsorted.
      destruct Hsorted as [Hm _]. rewrite Forall_forall in Hm. by apply Hm.
Qed.

Lemma argmax_from_first (r : date * Q) (l : list (date * Q)) :
  let m := argmax_from r l in
  m ∈ r :: l
  ∧ (∀ x, x ∈ r :: l → (x.2 <= m.2)%Q)
  ∧ (StronglySorted by_year (r :: l) →
     ∀ x, x ∈ r :: l → (x.2 == m.2)%Q → year m.1 ≤ year x.1).
Proof.
  intros m.
  destruct (argmax_from_split l r [] []) as (l1 & l2 & Heq & H1 & H2);
    [constructor..|].
  simpl in Heq. fold m in Heq, H1, H2. rewrite Heq.
  rewrite Forall_forall in H1. rewrite Forall_forall in H2.
  split; [|split].
  - apply elem_of_app. right. left.
  - intros x Hx. apply elem_of_app in Hx as [Hx|Hx].
    + apply Qlt_le_weak. by apply H1.
    + apply elem_of_cons in Hx as [->|Hx]; [apply Qle_refl|by apply H2].
  - intros Hsorted x Hx Htie. apply elem_of_app in Hx as [Hx|Hx].
    + exfalso. apply H1 in Hx. rewrite Htie in Hx. by apply Qlt_irrefl in Hx.
    + apply elem_of_cons in Hx as [->|Hx]; [lia|].
      apply StronglySorted_app_1_r, StronglySorted_cons in Hsorted.
      destruct Hsorted as [Hm _]. rewrite Forall_forall in Hm. by apply Hm.
Qed.

Lemma foldl_Qmin_glb (xs : list Q) : ∀ x,
  (foldl Qmin x xs <= x)%Q
  ∧ Forall (λ y, (foldl Qmin x xs <= y)%Q) xs
  ∧ ∀ z, (z <= x)%Q → Forall (λ y, (z <= y)%Q) xs → (z <= foldl Qmin x xs)%Q.
Proof.
  induction xs as [|y xs IH]; intros x; simpl.
  - split; [apply Qle_refl|]. split; [constructor|]. done.
  - destruct (IH (Qmin x y)) as (Hx & Hxs & Hglb). split; [|split].
    + eapply Qle_trans; [exact Hx|apply Q.le_min_l].
    + constructor; [|done]. eapply Qle_trans; [exact Hx|apply Q.le_min_r].
    + intros z Hz Hall. apply Forall_cons in Hall as [Hy Hall].
      apply Hglb; [|done]. by apply Q.min_glb.
Qed.

Lemma foldl_Qmax_lub (xs : list Q) : ∀ x,
  (x <= foldl Qmax x xs)%Q
  ∧ Forall (λ y, (y <= foldl Qmax x xs)%Q) xs
  ∧ ∀ z, (x <= z)%Q → Forall (λ y, (y <= z)%Q) xs → (foldl Qmax x xs <= z)%Q.
Proof.
  induction xs as [|y xs IH]; intros x; simpl.
  - split; [apply Qle_refl|]. split; [constructor|]. done.
  - destruct (IH (Qmax x y)) as (Hx & Hxs & Hlub). split; [|split].
    + eapply Qle_trans; [apply Q.le_max_l|exact Hx].
    + constructor; [|done]. eapply Qle_trans; [apply Q.le_max_r|exact Hx].
    + intros z Hz Hall. apply Forall_cons in Hall as [Hy Hall].
      apply Hlub; [|done]. by apply Q.max_lub.
Qed.

(** A slice in the order of its years has its variable series in that
    order. *)
Lemma variable_series_sorted (df : DataFrame float) label :
  StronglySorted (λ a b, year a ≤ year b) (index df) →
  StronglySorted by_year (variable_series df label).
Proof.
  unfold index, variable_series.
  induction (rows df) as [|r l IH]; intros Hs; [constructor|].
  csimpl in Hs. apply StronglySorted_cons in Hs as [Hr Hl].
  specialize (IH Hl). csimpl.
  destruct (cell_at (columns df) r.2 label) as [[q|]|]; try done.
  apply StronglySorted_cons. split; [|done].
  apply Forall_forall. intros x Hx.
  apply list_elem_of_omap in Hx as (r' & Hr' & Hx).
  rewrite Forall_forall in Hr.
  assert (year r.1 ≤ year r'.1) as Hle.
  { apply Hr. by apply list_elem_of_fmap_2. }
  destruct (cell_at (columns df) r'.2 label) as [[q'|]|]; try done.
  injection Hx as <-. done.
Qed.

(** [min()] and [idxmin()] agree: the least value is the value of the row
    that [idxmin] names. *)
Lemma series_min_argmin (r : date * Q) (l : list (date * Q)) :
  let lo := foldl Qmin r.2 (snd <$> l) in
  ((argmin_from r l).2 == lo)%Q ∧ ∀ x, x ∈ r :: l → (lo <= x.2)%Q.
Proof.
  intros lo.
  destruct (argmin_from_first r l) as (Hin & Hle & _).
  destruct (foldl_Qmin_glb (snd <$> l) r.2) as (Hr & Hl & Hglb). fold lo in Hr, Hl, Hglb.
  rewrite Forall_fmap, Forall_forall in Hl.
  assert (Hlo : ∀ x, x ∈ r :: l → (lo <= x.2)%Q).
  { intros x Hx. apply elem_of_cons in Hx as [->|Hx]; [done|by apply Hl]. }
  split; [|done]. apply Qle_antisym.
  - apply Hglb; [apply Hle; left|].
    rewrite Forall_fmap, Forall_forall. intros x Hx. apply Hle. by right.
  - by apply Hlo.
Qed.

Lemma series_max_argmax (r : date * Q) (l : list (date * Q)) :
  let hi := foldl Qmax r.2 (snd <$> l) in
  ((argmax_from r l).2 == hi)%Q ∧ ∀ x, x ∈ r :: l → (x.2 <= hi)%Q.
Proof.
  intros hi.
  destruct (argmax_from_first r l) as (Hin & Hle & _).
  destruct (foldl_Qmax_lub (snd <$> l) r.2) as (Hr & Hl & Hlub). fold hi in Hr, Hl, Hlub.
  rewrite Forall_fmap, Forall_forall in Hl.
  assert (Hhi : ∀ x, x ∈ r :: l → (x.2 <= hi)%Q).
  { intros x Hx. apply elem_of_cons in Hx as [->|Hx]; [done|by apply Hl]. }
  split; [|done]. apply Qle_antisym.
  - by apply Hhi.
  - apply Hlub; [apply Hle; left|].
    rewrite Forall_fmap, Forall_forall. intros x Hx. apply Hle. by right.
Qed.

(** C7: for every slice in the order of its years whose variable series is
    not empty, [plot_data] reports the minimum and the maximum of the series,
    each with the date of a row that holds it, and when several rows share
    the extreme value the reported year is the earliest of theirs. *)
Theorem min_max_earliest_year load_station_df d network station
    (df : DataFrame float) label sdf lbl :
  label ∈ columns df →
  load_station_df network = Ok sdf →
  item (snd <$> filter (λ x, x.1 = station) sdf) = Ok lbl →
  variable_series df label ≠ [] →
  StronglySorted (λ a b, year a ≤ year b) (index df) →
  ∃ stats lo hi,
    plot_data load_station_df d network station df label = Ok stats
    ∧ min_ stats = Num lo
    ∧ max_ stats = Num hi
    ∧ (∃ q, (min_idx stats, q) ∈ variable_series df label ∧ (q == lo)%Q)
    ∧ (∃ q, (max_idx stats, q) ∈ variable_series df label ∧ (q == hi)%Q)
    ∧ ∀ dt q, (dt, q) ∈ variable_series df label →
        (lo <= q)%Q ∧ (q <= hi)%Q
        ∧ ((q == lo)%Q → year (min_idx stats) ≤ year dt)
        ∧ ((q == hi)%Q → year (max_idx stats) ≤ year dt).
Proof.
  intros Hin Hsdf Hitem Hne Hsorted.
  apply (variable_series_sorted df label) in Hsorted.
  destruct (variable_series df label) as [|r l] eqn:Hvs; [done|].
  destruct (last (r :: l)) as [[dt0 q0]|] eqn:Hlast;
    [|by apply last_None in Hlast].
  rewrite (plot_data_Ok load_station_df d network station df label
             sdf lbl r l dt0 q0) by done.
  destruct (argmin_from_first r l) as (Hmin_in & _ & Hmin_tie).
  destruct (argmax_from_first r l) as (Hmax_in & _ & Hmax_tie).
  destruct (series_min_argmin r l) as (Hmin_eq & Hlo).
  destruct (series_max_argmax r l) as (Hmax_eq & Hhi).
  eexists _, (foldl Qmin r.2 (snd <$> l)), (foldl Qmax r.2 (snd <$> l)).
  split; [reflexivity|]. cbn [min_ max_ min_idx max_idx].
  split; [unfold series_min; by rewrite present_Num|].
  split; [unfold series_max; by rewrite present_Num|].
  split; [exists (argmin_from r l).2; by rewrite <- surjective_pairing|].
  split; [exists (argmax_from r l).2; by rewrite <- surjective_pairing|].
  intros dt q Hx.
  split; [apply (Hlo _ Hx)|]. split; [apply (Hhi _ Hx)|]. split.
  - intros Htie. apply (Hmin_tie Hsorted _ Hx). simpl.
    by rewrite Htie, Hmin_eq.
  - intros Htie. apply (Hmax_tie Hsorted _ Hx). simpl.
    by rewrite Htie, Hmax_eq.
Qed.

Lemma min_max_earliest_year_witness :
  ∃ stats,
    plot_data one_station (Date 2023 3 5) "CO_ASOS" "DEN" slice_tie
      "max_temp_f" = Ok stats
    ∧ min_ stats = Num 32
    ∧ year (min_idx stats) = 1990.
Proof.
  destruct (min_max_earliest_year one_station (Date 2023 3 5) "CO_ASOS" "DEN"
              slice_tie "max_temp_f"
              [("DEN", "DENVER INTL AIRPORT")] "DENVER INTL AIRPORT")
    as (stats & lo & hi & Hok & Hmin & _ & _ & _ & Hall).
  - vm_compute. apply (proj2 (list_elem_of_In _ _)). left. reflexivity.
  - reflexivity.
  - reflexivity.
  - discriminate.
  - vm_compute. repeat constructor; vm_compute; discriminate.
  - exists stats. split; [exact Hok|].
    vm_compute in Hok. injection Hok as <-. split; reflexivity.
Defined.

(** On rows that are not in the order of their years, the year reported
    with the minimum is that of the first row holding it, here 1995, though
    the value also occurred in 1990. *)
Lemma min_year_follows_row_order :
  ∃ stats,
    plot_data one_station (Date 2023 3 5) "CO_ASOS" "DEN" slice_tie_unordered
      "max_temp_f" = Ok stats
    ∧ min_ stats = Num 32
    ∧ year (min_idx stats) = 1995
    ∧ (Date 1990 3 5, 32%Q) ∈ variable_series slice_tie_unordered "max_temp_f"
    ∧ ¬ (∀ dt q, (dt, q) ∈ variable_series slice_tie_unordered "max_temp_f" →
           (q == 32)%Q → year (min_idx stats) ≤ year dt).
Proof.
  eexists. split; [reflexivity|]. cbn [min_ min_idx].
  split; [reflexivity|]. split; [reflexivity|].
  assert (Hin : (Date 1990 3 5, 32%Q)
                ∈ variable_series slice_tie_unordered "max_temp_f").
  { apply (proj2 (list_elem_of_In _ _)). vm_compute. tauto. }
  split; [exact Hin|].
  intros H. specialize (H _ _ Hin (Qeq_refl _)). vm_compute in H.
  by apply H.
Qed.

(** ** The year bins *)

Lemma bins_table : bins = [1930; 1950; 1970; 1990; 2010; 2030; 2050].
Proof. reflexivity. Qed.

Lemma cut_bins_inside (y : Z) :
  1930 < y ≤ 2050 →
  ∃ lo, lo ∈ bins ∧ lo + 20 ∈ bins ∧ lo < y ≤ lo + 20
        ∧ cut bins y = Some {| left_edge := lo; right_edge := lo + 20 |}.
Proof.
  intros Hy. rewrite bins_table. unfold cut, searchsorted_left.
  rewrite !filter_cons, filter_nil.
  assert (y ≤ 1950 ∨ 1950 < y ≤ 1970 ∨ 1970 < y ≤ 1990 ∨ 1990 < y ≤ 2010
          ∨ 2010 < y ≤ 2030 ∨ 2030 < y) as Hcase by lia.
  destruct Hcase as [H|[H|[H|[H|[H|H]]]]];
    [exists 1930|exists 1950|exists 1970|exists 1990|exists 2010|exists 2030];
    (split; [apply (proj2 (list_elem_of_In _ _)); simpl; lia|]);
    (split; [apply (proj2 (list_elem_of_In _ _)); simpl; lia|]);
    (split; [lia|]);
    repeat case_decide; simpl in *; try lia; reflexivity.
Qed.

Lemma cut_bins_outside (y : Z) : y < 1930 ∨ 2050 < y → cut bins y = None.
Proof.
  intros Hy. rewrite bins_table. unfold cut, searchsorted_left.
  rewrite !filter_cons, filter_nil.
  repeat case_decide; simpl in *; try lia; reflexivity.
Qed.

(** C8 (as amended): the score column gives each row of the slice the bin
    of its year in the fixed table of edges 1930, 1950, ..., 2050, which does
    not depend on the data: a row whose year is after 1930 and at most 2050
    falls into the one bin [(lo, lo + 20]] that holds its year, and a row
    whose year is before 1930 or after 2050 gets no bin. *)
Theorem score_bins (df : DataFrame float) (i : nat) (r : date * list float) :
  rows df !! i = Some r →
  bins = [1930; 1950; 1970; 1990; 2010; 2030; 2050]
  ∧ score (assign_score df) !! i = Some (cut bins (year r.1))
  ∧ (1930 < year r.1 ≤ 2050 →
     ∃ lo, lo ∈ bins ∧ lo + 20 ∈ bins ∧ lo < year r.1 ≤ lo + 20
           ∧ score (assign_score df) !! i
             = Some (Some {| left_edge := lo; right_edge := lo + 20 |}))
  ∧ (year r.1 < 1930 ∨ 2050 < year r.1 →
     score (assign_score df) !! i = Some None).
Proof.
  intros Hi.
  assert (Hs : score (assign_score df) !! i = Some (cut bins (year r.1))).
  { unfold assign_score, index. cbn [score].
    by rewrite !list_lookup_fmap, Hi. }
  split; [apply bins_table|]. split; [exact Hs|]. split.
  - intros Hy. destruct (cut_bins_inside _ Hy) as (lo & H1 & H2 & H3 & H4).
    exists lo. by rewrite Hs, H4.
  - intros Hy. by rewrite Hs, cut_bins_outside.
Qed.

Lemma score_bins_witness :
  score (assign_score slice_1928) !! 1%nat
  = Some (Some {| left_edge := 1930; right_edge := 1950 |}).
Proof.
  destruct (score_bins slice_1928 1 (Date 1950 3 5, [Num 47]))
    as (_ & Hs & _); [reflexivity|].
  rewrite Hs. reflexivity.
Defined.

(** The program requests the data from 1928 on; a row of that year gets no
    bin. *)
Lemma score_1928_no_bin :
  (Date 1928 3 5, [Num 41]) ∈ rows slice_1928
  ∧ score (assign_score slice_1928) !! 0%nat = Some None
  ∧ ¬ Forall is_Some (score (assign_score slice_1928))
  ∧ ∃ stats,
      plot_data one_station (Date 2023 3 5) "CO_ASOS" "DEN" slice_1928
        "max_temp_f" = Ok stats
      ∧ kde_by stats !! 0%nat = Some None.
Proof.
  split; [apply (proj2 (list_elem_of_In _ _)); simpl; tauto|].
  split; [reflexivity|]. split.
  - intros H. apply Forall_cons in H as [[x Hx] _]. vm_compute in Hx.
    discriminate Hx.
  - eexists. split; reflexivity.
Qed.

(** ** The dashboard update *)

(** X14: After an update that loaded and filtered the data, an update for the
    same date, network and station, whatever the weather variable, leaves the
    memo tables as they are: no download and no filtering runs again. *)
Lemma update_dashboard_reuses pf f32 read_csv read_csv' lsd hash_load
    hash_select d network station weather_var weather_var' s stats s' :
  update_dashboard pf f32 read_csv lsd hash_load hash_select
    d network station weather_var s = (Ok stats, s') →
  (update_dashboard pf f32 read_csv' lsd hash_load hash_select
     d network station weather_var' s').2 = s'.
Proof.
  unfold update_dashboard.
  destruct (cached hash_load (load_data read_csv) (d, network, station)
              (load_data_memo s)) as [df m1] eqn:E1.
  destruct df as [df|e]; cbn [mbind result_bind]; [|intros [=]].
  destruct (preprocess_data pf f32 df) as [pdf|e] eqn:Ep; [|intros [=]].
  destruct (cached hash_select _ (d, pdf) _) as [sel m2] eqn:E2.
  cbn [select_data_memo] in E2.
  intros [= Hplot <-]. cbn [load_data_memo select_data_memo].
  destruct sel as [sel|e]; [|discriminate Hplot].
  apply cached_Ok_stored in E1. apply cached_Ok_stored in E2.
  rewrite (cached_stored hash_load (load_data read_csv') _ m1 df E1).
  cbn [mbind result_bind]. rewrite Ep.
  cbn [select_data_memo].
  by rewrite (cached_stored hash_select _ _ m2 sel E2).
Qed.

(** * Further properties of the pipeline *)

(** ** Filtering again, and the order of the dates *)

Lemma select_data_frame d (df : DataFrame float) :
  select_data d df
  = Frame (columns df) (filter (λ r, same_day d r.1) (rows df)).
Proof.
  rewrite <- select_data_rows. reflexivity.
Qed.

(** X1: Filtering a slice again by its own day returns the slice; filtering it
    by any other day of the year leaves no row. *)
Theorem select_data_twice d d' (df : DataFrame float) :
  select_data d (select_data d df) = select_data d df
  ∧ (¬ same_day d d' → rows (select_data d' (select_data d df)) = []).
Proof.
  split.
  - rewrite !select_data_frame. cbn [columns rows]. f_equal.
    by apply list_filter_filter_l.
  - intros Hne. rewrite !select_data_frame. cbn [columns rows].
    rewrite list_filter_filter.
    induction (rows df) as [|r l IH]; [done|].
    rewrite filter_cons, decide_False; [exact IH|].
    unfold same_day in *. intros [[H1 H2] [H3 H4]]. apply Hne.
    split; congruence.
Qed.

Lemma index_filter {A} (P : date → Prop) `{∀ x, Decision (P x)}
    (l : list (date * list A)) :
  fst <$> filter (λ r, P r.1) l = filter P (fst <$> l).
Proof.
  induction l as [|r l IH]; [done|]. csimpl. rewrite !filter_cons.
  destruct (decide (P r.1)); csimpl; by rewrite IH.
Qed.

Lemma StronglySorted_filter {A} (R : relation A) (P : A → Prop)
    `{∀ x, Decision (P x)} (l : list A) :
  StronglySorted R l → StronglySorted R (filter P l).
Proof.
  induction l as [|x l IH]; [done|].
  intros [Hx Hl]%StronglySorted_cons. specialize (IH Hl).
  rewrite filter_cons. destruct (decide (P x)); [|done].
  apply StronglySorted_cons. split; [|done].
  rewrite Forall_forall in Hx. apply Forall_forall.
  intros y [_ Hy]%list_elem_of_filter. by apply Hx.
Qed.

Lemma preprocess_data_index pf f32 (df : DataFrame obj) cleaned :
  preprocess_data pf f32 df = Ok cleaned → index cleaned = index df.
Proof.
  unfold preprocess_data, drop_columns.
  destruct (decide (["station"] ⊆ columns df)); [|discriminate].
  cbn [mbind result_bind]. intros [= <-].
  unfold index, applymap. cbn [rows]. rewrite <- !list_fmap_compose.
  by apply list_fmap_ext.
Qed.

(** X2: Cleaning and filtering keep the rows in the order of the raw table: the
    dates of the slice are the dates of the raw table that fall on the
    target's day, in the raw table's order; so a raw table in the order of
    its years gives a slice in the order of its years. *)
Theorem slice_dates_in_raw_order pf f32 (df : DataFrame obj) d :
  "station" ∈ columns df →
  ∃ cleaned,
    preprocess_data pf f32 df = Ok cleaned
    ∧ index (select_data d cleaned) = filter (same_day d) (index df)
    ∧ (StronglySorted (λ a b, year a ≤ year b) (index df) →
       StronglySorted (λ a b, year a ≤ year b) (index (select_data d cleaned))).
Proof.
  intros Hin.
  destruct (preprocess_data pf f32 df) as [cleaned|e] eqn:E.
  - exists cleaned. split; [done|].
    apply preprocess_data_index in E.
    assert (Hidx : index (select_data d cleaned)
                   = filter (same_day d) (index df)).
    { rewrite <- E. unfold index. rewrite select_data_rows.
      apply (index_filter (same_day d)). }
    split; [exact Hidx|]. intros Hs. rewrite Hidx.
    by apply StronglySorted_filter.
  - pose proof (preprocess_data_is_ok pf f32 df) as Hok.
    rewrite E, bool_decide_eq_true_2 in Hok by done. discriminate Hok.
Qed.

Lemma slice_dates_in_raw_order_witness :
  ∃ cleaned,
    preprocess_data parse_digits no_rounding raw_table_days = Ok cleaned
    ∧ index (select_data (Date 2024 3 5) cleaned)
      = [Date 2022 3 5; Date 2023 3 5].
Proof.
  destruct (slice_dates_in_raw_order parse_digits no_rounding raw_table_days
              (Date 2024 3 5)) as (cleaned & Hok & Hidx & _).
  { vm_compute. apply (proj2 (list_elem_of_In _ _)). left. reflexivity. }
  exists cleaned. split; [exact Hok|]. rewrite Hidx. reflexivity.
Defined.

(** ** When plot_data returns, and what it raises *)

Lemma item_singleton {A} (l : list A) :
  length l = 1%nat ↔ ∃ x, item l = Ok x.
Proof.
  destruct l as [|x [|y l]]; simpl; split; try done.
  - by intros [x H].
  - by eexists.
  - by intros [z H].
Qed.

Lemma variable_series_elem_of (df : DataFrame float) label dt q :
  (dt, q) ∈ variable_series df label
  ↔ ∃ r, r ∈ rows df ∧ r.1 = dt ∧ cell_value (columns df) r.2 label = Num q.
Proof.
  unfold variable_series, cell_value. rewrite list_elem_of_omap. split.
  - intros (r & Hr & Hq). exists r. split; [done|].
    destruct (cell_at (columns df) r.2 label) as [[q'|]|]; try done.
    by injection Hq as -> ->.
  - intros (r & Hr & <- & Hq). exists r. split; [done|].
    destruct (cell_at (columns df) r.2 label) as [[q'|]|]; try done.
    simpl in Hq. by injection Hq as ->.
Qed.

Section PlotReturns.

Variable load_station_df : string → result (list (string * string)).

Lemma plot_data_KeyError d network station (df : DataFrame float) label :
  label ∉ columns df →
  plot_data load_station_df d network station df label = Raise KeyError.
Proof.
  intros Hout. unfold plot_data, dropna_subset, assign_score, getitem.
  cbn [frame]. by rewrite decide_False.
Qed.

Lemma plot_data_catalog_Raise d network station (df : DataFrame float) label e :
  label ∈ columns df →
  load_station_df network = Raise e →
  plot_data load_station_df d network station df label = Raise e.
Proof.
  intros Hin He. unfold plot_data. rewrite dropna_assign_score by done.
  cbn [mbind result_bind]. by rewrite He.
Qed.

Lemma plot_data_ValueError d network station (df : DataFrame float) label sdf :
  label ∈ columns df →
  load_station_df network = Ok sdf →
  length (filter (λ r, r.1 = station) sdf) ≠ 1%nat →
  plot_data load_station_df d network station df label = Raise ValueError.
Proof.
  intros Hin Hsdf Hlen. unfold plot_data. rewrite dropna_assign_score by done.
  cbn [mbind result_bind]. rewrite Hsdf. cbn [mbind result_bind].
  destruct (filter (λ r, r.1 = station) sdf) as [|a [|b l]]; try done.
Qed.

(** The conditions under which [plot_data] returns, read back from a
    returned value. *)
Lemma plot_data_Ok_inv d network station (df : DataFrame float) label stats :
  plot_data load_station_df d network station df label = Ok stats →
  ∃ sdf lbl r l dt q,
    label ∈ columns df
    ∧ load_station_df network = Ok sdf
    ∧ item (snd <$> filter (λ x, x.1 = station) sdf) = Ok lbl
    ∧ variable_series df label = r :: l
    ∧ last (r :: l) = Some (dt, q).
Proof.
  intros Hok.
  destruct (decide (label ∈ columns df)) as [Hin|Hout];
    [|by rewrite plot_data_KeyError in Hok].
  destruct (load_station_df network) as [sdf|e] eqn:Hsdf;
    [|by rewrite (plot_data_catalog_Raise _ _ _ _ _ e) in Hok].
  destruct (decide (length (filter (λ r, r.1 = station) sdf) = 1%nat))
    as [Hlen|Hlen];
    [|by rewrite (plot_data_ValueError _ _ _ _ _ sdf) in Hok].
  rewrite <- (length_fmap snd) in Hlen.
  apply item_singleton in Hlen as [lbl Hitem].
  destruct (variable_series df label) as [|r l] eqn:Hvs.
  { by rewrite (plot_data_no_value _ _ _ _ _ _ sdf lbl) in Hok. }
  destruct (last (r :: l)) as [[dt q]|] eqn:Hlast;
    [|by apply last_None in Hlast].
  by exists sdf, lbl, r, l, dt, q.
Qed.

(** X6: A slice that has rows, none of them with a reading of the variable,
    raises [IndexError] like a slice without rows. *)
Theorem plot_data_all_missing d network station (df : DataFrame float)
    label sdf :
  label ∈ columns df →
  load_station_df network = Ok sdf →
  length (filter (λ r, r.1 = station) sdf) = 1%nat →
  Forall (λ r, cell_value (columns df) r.2 label = NaN) (rows df) →
  plot_data load_station_df d network station df label = Raise IndexError.
Proof.
  intros Hin Hsdf Hlen Hall.
  rewrite <- (length_fmap snd) in Hlen.
  apply item_singleton in Hlen as [lbl Hitem].
  apply (plot_data_no_value _ _ _ _ _ _ sdf lbl); try done.
  destruct (variable_series df label) as [|[dt q] l] eqn:Hvs; [done|].
  assert ((dt, q) ∈ variable_series df label) as Hr by (rewrite Hvs; left).
  apply variable_series_elem_of in Hr as (row & Hrow & _ & Hq).
  rewrite Forall_forall in Hall. by rewrite (Hall row Hrow) in Hq.
Qed.

End PlotReturns.

Lemma plot_data_all_missing_witness :
  plot_data one_station (Date 2023 3 5) "CO_ASOS" "DEN" slice_all_missing
    "max_temp_f" = Raise IndexError.
Proof.
  apply (plot_data_all_missing one_station (Date 2023 3 5) "CO_ASOS" "DEN"
           slice_all_missing "max_temp_f" [("DEN", "DENVER INTL AIRPORT")]).
  - vm_compute. apply (proj2 (list_elem_of_In _ _)). left. reflexivity.
  - reflexivity.
  - reflexivity.
  - repeat constructor.
Defined.

(** ** The reported numbers *)

Lemma count_nonzero_lt_scalar_lt (a : list float) (t : Q) :
  Num t ∈ a → (count_nonzero (lt_scalar a t) < length a)%nat.
Proof.
  intros Hin. unfold count_nonzero, lt_scalar.
  rewrite <- (length_fmap (λ x, match x with
                                | Num q => if Qlt_le_dec q t then true else false
                                | NaN => false
                                end) a).
  apply (length_filter_lt _ _ false); [|done].
  apply list_elem_of_fmap. exists (Num t). split; [|done].
  destruct (Qlt_le_dec t t) as [H|H]; [|done].
  by apply Qlt_irrefl in H.
Qed.

(** The bounds of a series: the values of the first-minimum and
    first-maximum folds enclose every value. *)
Lemma series_bounds (r : date * Q) (l : list (date * Q)) :
  Forall (λ x, (foldl Qmin r.2 (snd <$> l) <= x
                <= foldl Qmax r.2 (snd <$> l))%Q) (snd <$> (r :: l)).
Proof.
  destruct (series_min_argmin r l) as [_ Hlo].
  destruct (series_max_argmax r l) as [_ Hhi].
  rewrite Forall_fmap, Forall_forall. intros x Hx. simpl.
  split; [by apply Hlo|by apply Hhi].
Qed.

Lemma series_min_Num (r : date * Q) (l : list (date * Q)) :
  series_min ((λ p : date * Q, (p.1, Num p.2)) <$> (r :: l))
  = Num (foldl Qmin r.2 (snd <$> l)).
Proof. unfold series_min. by rewrite present_Num. Qed.

Lemma series_max_Num (r : date * Q) (l : list (date * Q)) :
  series_max ((λ p : date * Q, (p.1, Num p.2)) <$> (r :: l))
  = Num (foldl Qmax r.2 (snd <$> l)).
Proof. unfold series_max. by rewrite present_Num. Qed.

Lemma series_values (vs : list (date * Q)) :
  snd <$> ((λ p : date * Q, (p.1, Num p.2)) <$> vs) = Num <$> (snd <$> vs).
Proof. rewrite <- !list_fmap_compose. by apply list_fmap_ext. Qed.

Lemma percentileofscore_strict_double_count (xs : list Q) (t : Q) :
  xs ≠ [] →
  percentileofscore_strict_double (Num <$> xs) (Num t)
  = PrimFloat.mul
      (PrimFloat.div
         (float_of_Z (Z.of_nat (count_strictly_less xs t)))
         (float_of_Z (Z.of_nat (length xs))))
      (float_of_Z 100).
Proof.
  intros Hne. unfold percentileofscore_strict_double.
  destruct (Num <$> xs) as [|y ys] eqn:E.
  { destruct xs; [done|discriminate E]. }
  rewrite <- E. by rewrite count_nonzero_lt_scalar, length_fmap.
Qed.

(** The percentile of a value that is itself in the series. *)
Lemma percentile_member_bounds (a : list float) (t : Q) :
  Num t ∈ a →
  ∃ p, percentileofscore_strict a (Num t) = Num p
       ∧ (0 <= p)%Q ∧ (p <= 100 - 100 / Qlen a)%Q ∧ (p < 100)%Q.
Proof.
  intros Ha.
  assert (Hc := count_nonzero_lt_scalar_lt a t Ha).
  assert (Hne : a ≠ []).
  { intros E. rewrite E in Ha. by apply not_elem_of_nil in Ha. }
  assert (Hpos := Qlen_pos a Hne).
  unfold percentileofscore_strict. destruct a as [|x a'] eqn:Ea; [done|].
  rewrite <- Ea in *. eexists. split; [reflexivity|].
  set (c := inject_Z (Z.of_nat (count_nonzero (lt_scalar a t)))).
  assert (H0 : (0 <= c)%Q).
  { unfold c. change 0%Q with (inject_Z 0). rewrite <- Zle_Qle. lia. }
  assert (H1 : (c / Qlen a < 1)%Q).
  { apply Qlt_shift_div_r; [done|]. rewrite Qmult_1_l. unfold c, Qlen.
    rewrite <- Zlt_Qlt. lia. }
  assert (H2 : (0 <= c / Qlen a)%Q).
  { apply Qle_shift_div_l; [done|]. by rewrite Qmult_0_l. }
  assert (H3 : ((c + 1) / Qlen a <= 1)%Q).
  { apply Qle_shift_div_r; [done|]. rewrite Qmult_1_l. unfold c, Qlen.
    change 1%Q with (inject_Z 1). rewrite <- inject_Z_plus, <- Zle_Qle. lia. }
  unfold Qdiv in *. rewrite Qmult_plus_distr_l, Qmult_1_l in H3.
  generalize dependent (c * / Qlen a)%Q. intros ratio Hr1 Hr2 Hr3.
  generalize dependent (/ Qlen a)%Q. intros inv Hr3.
  repeat split; lra.
Qed.

Section PlotNumbers.

Variable load_station_df : string → result (list (string * string)).

(** X8: Whenever [plot_data] returns, the highlighted value is a reading of the
    series and lies between the reported minimum and maximum; the number of
    readings strictly below it is less than the number n of rows with a
    reading, as the value does not count itself; the percentile the program
    computes is the double evaluation of that number divided by n, times
    100; and the exact value of this expression is at least 0 and at most
    100 - 100 / n, so strictly below 100. *)
Theorem plot_data_highlight_within d network station
    (df : DataFrame float) label stats :
  plot_data load_station_df d network station df label = Ok stats →
  ∃ lo hi t p,
    min_ stats = Num lo ∧ max_ stats = Num hi
    ∧ weather_date stats = Num t ∧ percentile stats = Num p
    ∧ (∃ dt, (dt, t) ∈ variable_series df label)
    ∧ (lo <= t <= hi)%Q
    ∧ (count_strictly_less (snd <$> variable_series df label) t
       < years stats)%nat
    ∧ percentile_double stats
      = PrimFloat.mul
          (PrimFloat.div
             (float_of_Z
                (Z.of_nat
                   (count_strictly_less
                      (snd <$> variable_series df label) t)))
             (float_of_Z (Z.of_nat (years stats))))
          (float_of_Z 100)
    ∧ (0 <= p)%Q
    ∧ (p <= 100 - 100 / Qlen (variable_series df label))%Q ∧ (p < 100)%Q.
Proof.
  intros Hok.
  destruct (plot_data_Ok_inv _ _ _ _ _ _ _ Hok)
    as (sdf & lbl & r & l & dt & q & Hin & Hsdf & Hitem & Hvs & Hlast).
  rewrite (plot_data_Ok load_station_df d network station df label
             sdf lbl r l dt q) in Hok by done.
  cbv zeta in Hok. rewrite (series_values (r :: l)) in Hok.
  injection Hok as <-.
  cbn [min_ max_ weather_date percentile percentile_double years].
  rewrite Hvs.
  assert (Hq : (dt, q) ∈ r :: l) by (by apply last_Some_elem_of).
  assert (Hb := series_bounds r l). rewrite Forall_fmap, Forall_forall in Hb.
  set (xs := snd <$> (r :: l)).
  assert (Ha : Num q ∈ Num <$> xs).
  { unfold xs. rewrite <- list_fmap_compose.
    apply list_elem_of_fmap. by exists (dt, q). }
  assert (Hne : xs ≠ []) by done.
  assert (Hlen : length (Num <$> xs) = length (r :: l)).
  { unfold xs. by rewrite !length_fmap. }
  destruct (percentile_member_bounds _ q Ha) as (p & Hp & Hp0 & Hpn & Hp100).
  assert (Hc := count_nonzero_lt_scalar_lt _ q Ha).
  rewrite count_nonzero_lt_scalar, Hlen in Hc.
  exists (foldl Qmin r.2 (snd <$> l)), (foldl Qmax r.2 (snd <$> l)), q, p.
  split; [exact (series_min_Num r l)|].
  split; [exact (series_max_Num r l)|].
  split; [done|]. split; [exact Hp|].
  split; [by exists dt|].
  split; [apply (Hb _ Hq)|].
  split; [exact Hc|]. split.
  { transitivity (percentileofscore_strict_double (Num <$> xs) (Num q));
      [reflexivity|].
    rewrite (percentileofscore_strict_double_count xs q Hne).
    do 4 f_equal. unfold xs. by rewrite length_fmap. }
  split; [done|]. split; [|done].
  unfold Qlen in *. by rewrite Hlen in Hpn.
Qed.

End PlotNumbers.

Lemma plot_data_highlight_within_witness :
  ∃ stats t p,
    plot_data one_station (Date 2023 3 5) "CO_ASOS" "DEN" slice_50_90
      "max_temp_f" = Ok stats
    ∧ weather_date stats = Num t ∧ percentile stats = Num p
    ∧ (0 <= p)%Q ∧ (p < 100)%Q.
Proof.
  destruct (plot_data one_station (Date 2023 3 5) "CO_ASOS" "DEN" slice_50_90
              "max_temp_f") as [stats|e] eqn:E; [|vm_compute in E; discriminate E].
  destruct (plot_data_highlight_within one_station _ _ _ _ _ stats E)
    as (lo & hi & t & p & _ & _ & H1 & H2 & _ & _ & _ & _ & H3 & _ & H4).
  by exists stats, t, p.
Defined.

(** ** The percentile in double precision *)

(** C3 (as amended): for every non-empty series of present values and every
    target value, the percentile is the double that results from dividing the
    number of values strictly less than the target by the number of values
    and multiplying the quotient by 100, each of the two operations rounded
    to the nearest double; for the series 50, 60, 70, 80, 90 and the target
    70 it is exactly 40; and whenever [plot_data] returns, this is the
    percentile it computes for the highlighted value in the variable
    series. *)
Theorem percentile_strict_double_rule (xs : list Q) (target : Q) :
  xs ≠ [] →
  percentileofscore_strict_double (Num <$> xs) (Num target)
  = PrimFloat.mul
      (PrimFloat.div
         (float_of_Z (Z.of_nat (count_strictly_less xs target)))
         (float_of_Z (Z.of_nat (length xs))))
      (float_of_Z 100)
  ∧ percentileofscore_strict_double (Num <$> [50; 60; 70; 80; 90]%Q) (Num 70)
    = float_of_Z 40
  ∧ ∀ load_station_df d network station (df : DataFrame float) label
      stats dt,
      plot_data load_station_df d network station df label = Ok stats →
      snd <$> variable_series df label = xs →
      last (variable_series df label) = Some (dt, target) →
      weather_date stats = Num target
      ∧ percentile_double stats
        = PrimFloat.mul
            (PrimFloat.div
               (float_of_Z (Z.of_nat (count_strictly_less xs target)))
               (float_of_Z (Z.of_nat (length xs))))
            (float_of_Z 100).
Proof.
  intros Hne. split; [|split].
  - exact (percentileofscore_strict_double_count xs target Hne).
  - reflexivity.
  - intros lsd d network station df label stats dt Hok Hxs Hlast.
    destruct (plot_data_Ok_inv _ _ _ _ _ _ _ Hok)
      as (sdf & lbl & r & l & dt' & q & Hin & Hsdf & Hitem & Hvs & Hlast').
    rewrite Hvs in Hxs, Hlast. rewrite Hlast' in Hlast.
    injection Hlast as -> ->.
    rewrite (plot_data_Ok lsd d network station df label sdf lbl r l dt target)
      in Hok by done.
    cbv zeta in Hok. rewrite (series_values (r :: l)), Hxs in Hok.
    injection Hok as <-. cbn [weather_date percentile_double].
    split; [reflexivity|].
    exact (percentileofscore_strict_double_count xs target Hne).
Qed.

Lemma percentile_strict_double_rule_witness :
  count_strictly_less [50; 60; 80; 90; 70]%Q 70 = 2%nat
  ∧ percentileofscore_strict_double (Num <$> [50; 60; 80; 90; 70]%Q) (Num 70)
    = float_of_Z 40
  ∧ ∃ stats,
      plot_data one_station (Date 2023 3 5) "CO_ASOS" "DEN" slice_50_90
        "max_temp_f" = Ok stats
      ∧ weather_date stats = Num 70
      ∧ percentile_double stats = float_of_Z 40.
Proof.
  destruct (percentile_strict_double_rule [50; 60; 80; 90; 70]%Q 70%Q)
    as (Hp & _ & Hplot); [discriminate|].
  split; [reflexivity|]. split; [rewrite Hp; reflexivity|].
  destruct (plot_data one_station (Date 2023 3 5) "CO_ASOS" "DEN" slice_50_90
              "max_temp_f") as [stats|e] eqn:E; [|vm_compute in E; discriminate E].
  exists stats. split; [reflexivity|].
  destruct (Hplot one_station (Date 2023 3 5) "CO_ASOS" "DEN" slice_50_90
              "max_temp_f" stats (Date 2023 3 5) E)
    as [Ht Hd]; [reflexivity|reflexivity|].
  split; [exact Ht|]. rewrite Hd. reflexivity.
Defined.

(** With eleven of twenty readings below the highlighted one, the exact
    value of 100 times the count divided by the total is 55, and the
    percentile that [plot_data] computes is the next double above 55. *)
Lemma percentile_double_not_exact :
  let xs := snd <$> variable_series slice_20_years "max_temp_f" in
  length xs = 20%nat
  ∧ count_strictly_less xs 12 = 11%nat
  ∧ (100 * inject_Z 11 / inject_Z 20 == 55)%Q
  ∧ ∃ stats,
      plot_data one_station (Date 2023 3 5) "CO_ASOS" "DEN" slice_20_years
        "max_temp_f" = Ok stats
      ∧ weather_date stats = Num 12
      ∧ percentile_double stats ≠ float_of_Z 55
      ∧ percentile_double stats = PrimFloat.next_up (float_of_Z 55)
      ∧ PrimFloat.ltb (float_of_Z 55) (percentile_double stats) = true.
Proof.
  cbv zeta. split; [reflexivity|]. split; [reflexivity|].
  split; [reflexivity|].
  eexists. split; [reflexivity|]. cbn [weather_date percentile_double].
  split; [reflexivity|]. split; [|split; reflexivity].
  intros H.
  apply (f_equal (λ x, PrimFloat.eqb x (float_of_Z 55))) in H.
  vm_compute in H. discriminate H.
Qed.

(** The example at the level of [plot_data]: with the series 50, 60, 80,
    90 and, last, the target year's 70, the reported percentile is 40. *)
Example plot_data_percentile_40 :
  ∃ stats p,
    plot_data one_station (Date 2023 3 5) "CO_ASOS" "DEN" slice_50_90
      "max_temp_f" = Ok stats
    ∧ weather_date stats = Num 70
    ∧ percentile stats = Num p ∧ (p == 40)%Q
    ∧ percentile_double stats = float_of_Z 40.
Proof. eexists _, _. repeat split; reflexivity. Qed.

Lemma length_omap_le {A B} (f : A → option B) (l : list A) :
  (length (omap f l) ≤ length l)%nat.
Proof.
  induction l as [|x l IH]; [done|]. csimpl.
  destruct (f x); simpl; lia.
Qed.

(** X9: Whenever [plot_data] returns, the count of years in the title is the
    number of rows that have a reading of the variable, at least one and at
    most the number of rows of the slice, and the score column of the
    density plot has exactly one bin per such row, the bin of its year. *)
Theorem plot_data_years load_station_df d network station
    (df : DataFrame float) label stats :
  plot_data load_station_df d network station df label = Ok stats →
  years stats = length (variable_series df label)
  ∧ (1 ≤ years stats ≤ length (rows df))%nat
  ∧ length (kde_by stats) = years stats
  ∧ kde_by stats
    = (λ p : date * Q, cut bins (year p.1)) <$> variable_series df label.
Proof.
  intros Hok.
  destruct (plot_data_Ok_inv _ _ _ _ _ _ _ Hok)
    as (sdf & lbl & r & l & dt & q & Hin & Hsdf & Hitem & Hvs & Hlast).
  rewrite (plot_data_Ok load_station_df d network station df label
             sdf lbl r l dt q) in Hok by done.
  injection Hok as <-. cbn [years kde_by].
  assert (Hle := length_omap_le
    (λ r : date * list float,
       match cell_at (columns df) r.2 label with
       | Some (Num q) => Some (r.1, q)
       | _ => None
       end) (rows df)).
  fold (variable_series df label) in Hle. rewrite Hvs in *.
  split; [done|]. split; [simpl in *; lia|].
  split; [|done].
  apply (length_fmap (λ p : date * Q, cut bins (year p.1)) (r :: l)).
Qed.

Lemma plot_data_years_witness :
  ∃ stats,
    plot_data one_station (Date 2023 3 5) "CO_ASOS" "DEN" slice_latest_missing
      "max_temp_f" = Ok stats
    ∧ years stats = 2%nat
    ∧ length (rows slice_latest_missing) = 3%nat.
Proof.
  destruct (plot_data one_station (Date 2023 3 5) "CO_ASOS" "DEN"
              slice_latest_missing "max_temp_f") as [stats|e] eqn:E;
    [|vm_compute in E; discriminate E].
  destruct (plot_data_years one_station _ _ _ _ _ stats E) as (Hy & _).
  exists stats. split; [reflexivity|]. split; [|reflexivity].
  rewrite Hy. reflexivity.
Defined.

(** ** What the memo tables keep *)

Section CacheMore.

Context {K V : Type} (hash : K → string).

(** X12: A call whose body raises stores nothing: the exception reaches the
    caller, the table is as before, and the next call with the same key runs
    the body again and stores what it then returns. *)
Theorem cached_failure_retried (func : K → result V) args m e m' :
  cached hash func args m = (Raise e, m') →
  func args = Raise e
  ∧ entries m' = entries m
  ∧ calls m' = S (calls m)
  ∧ ∀ func' v, func' args = Ok v →
      cached hash func' args m'
      = (Ok v, Memo (<[hash args := v]> (entries m)) (S (S (calls m)))).
Proof.
  unfold cached.
  destruct (entries m !! hash args) as [ret|] eqn:Hm; [intros [=]|].
  destruct (func args) as [ret|e0] eqn:Hf; intros [= <- <-].
  cbn [entries calls]. repeat split.
  intros func' v Hv. by rewrite Hm, Hv.
Qed.

End CacheMore.

Lemma cached_failure_retried_witness :
  let key := (Date 2023 3 5, "CO_ASOS", "DEN") in
  let m1 := (cached url_digest (load_data read_csv_down) key empty_memo).2 in
  entries m1 = ∅
  ∧ (cached url_digest (load_data read_csv_up) key m1).1 = Ok raw_table.
Proof.
  intros key m1.
  destruct (cached_failure_retried url_digest (load_data read_csv_down) key
              empty_memo (Other "HTTPError") m1) as (_ & He & _ & Hnext);
    [reflexivity|].
  split; [exact He|].
  by rewrite (Hnext (load_data read_csv_up) raw_table).
Defined.

Lemma cached_later_witness :
  let key := (Date 2023 3 5, "CO_ASOS", "DEN") in
  let other := (Date 2023 3 6, "CO_ASOS", "APA") in
  let m1 := (cached url_digest (load_data read_csv_up) key empty_memo).2 in
  let m2 := (cached url_digest (load_data read_csv_no_station) other m1).2 in
  cached url_digest (load_data read_csv_down) key m2 = (Ok raw_table, m2).
Proof.
  intros key other m1 m2.
  apply (cached_later url_digest (load_data read_csv_up) key empty_memo
           raw_table m1 [(load_data read_csv_no_station, other)]
           (load_data read_csv_down)).
  reflexivity.
Defined.

Section DashboardMore.

Variable parse_float : string → option Q.
Variable float32 : Q → Q.
Variable load_station_df : string → result (list (string * string)).
Variable hash_load : date * string * string → string.
Variable hash_select : date * DataFrame float → string.

(** X15: A download that fails on a key that is not cached reaches the caller
    of [update_dashboard] as it is and leaves both memo tables without a new
    entry; the next update for the key runs the download again. *)
Theorem update_dashboard_download_failure read_csv d network station
    weather_var s e :
  entries (load_data_memo s) !! hash_load (d, network, station) = None →
  read_csv (DATA_URL_FMT network station d) = Raise e →
  let r := update_dashboard parse_float float32 read_csv load_station_df
             hash_load hash_select d network station weather_var s in
  r.1 = Raise e
  ∧ entries (load_data_memo r.2) = entries (load_data_memo s)
  ∧ select_data_memo r.2 = select_data_memo s
  ∧ ∀ read_csv' weather_var',
      calls (load_data_memo
               (update_dashboard parse_float float32 read_csv' load_station_df
                  hash_load hash_select d network station weather_var' r.2).2)
      = S (S (calls (load_data_memo s))).
Proof.
  intros Hnone He r.
  assert (Hr : r = (Raise e,
                    {| load_data_memo :=
                         Memo (entries (load_data_memo s))
                              (S (calls (load_data_memo s)));
                       select_data_memo := select_data_memo s |})).
  { unfold r, update_dashboard, cached.
    rewrite Hnone. cbn [load_data]. by rewrite He. }
  rewrite Hr. cbn [fst snd load_data_memo select_data_memo entries].
  split; [done|]. split; [done|]. split; [done|].
  intros read_csv' weather_var'. unfold update_dashboard, cached at 1.
  cbn [load_data_memo entries calls]. rewrite Hnone.
  destruct (load_data read_csv' (d, network, station)) as [df|e'];
    cbn [mbind result_bind]; [|done].
  destruct (preprocess_data parse_float float32 df) as [pdf|e']; [|done].
  by destruct (cached hash_select _ (d, pdf) _).
Qed.

(** X16: A downloaded table without the station column is kept in the memo
    table although it cannot be cleaned: the update raises [KeyError], and
    every later update for the same date, network and station raises it
    again without downloading, whatever the source would now serve. *)
Theorem update_dashboard_unclean_table_kept read_csv d network station
    weather_var s df :
  entries (load_data_memo s) !! hash_load (d, network, station) = None →
  read_csv (DATA_URL_FMT network station d) = Ok df →
  "station" ∉ columns df →
  let r := update_dashboard parse_float float32 read_csv load_station_df
             hash_load hash_select d network station weather_var s in
  r.1 = Raise KeyError
  ∧ ∀ read_csv' weather_var',
      update_dashboard parse_float float32 read_csv' load_station_df
        hash_load hash_select d network station weather_var' r.2
      = (Raise KeyError, r.2).
Proof.
  intros Hnone Hdf Hout.
  assert (Hk : preprocess_data parse_float float32 df = Raise KeyError).
  { unfold preprocess_data.
    by rewrite drop_KeyError by (by rewrite singleton_subseteq). }
  intros r.
  assert (Hr : r = (Raise KeyError,
                    {| load_data_memo :=
                         Memo (<[hash_load (d, network, station) := df]>
                                 (entries (load_data_memo s)))
                              (S (calls (load_data_memo s)));
                       select_data_memo := select_data_memo s |})).
  { unfold r, update_dashboard, cached.
    rewrite Hnone. cbn [load_data]. rewrite Hdf. cbn [mbind result_bind].
    by rewrite Hk. }
  rewrite Hr. cbn [fst snd]. split; [done|].
  intros read_csv' weather_var'. unfold update_dashboard, cached at 1.
  cbn [load_data_memo entries]. rewrite lookup_insert_eq.
  cbn [mbind result_bind]. by rewrite Hk.
Qed.

End DashboardMore.

Lemma update_dashboard_reuses_witness :
  let r := update_dashboard parse_digits no_rounding read_csv_up one_station
             url_digest frame_digest (Date 2023 3 5) "CO_ASOS" "DEN"
             "max_temp_f" empty_session in
  is_ok r.1 = true
  ∧ (update_dashboard parse_digits no_rounding read_csv_down one_station
       url_digest frame_digest (Date 2023 3 5) "CO_ASOS" "DEN"
       "precip_in" r.2).2 = r.2.
Proof.
  cbv zeta.
  destruct (update_dashboard parse_digits no_rounding read_csv_up one_station
              url_digest frame_digest (Date 2023 3 5) "CO_ASOS" "DEN"
              "max_temp_f" empty_session) as [[stats|e] s'] eqn:E;
    [|vm_compute in E; discriminate E].
  split; [reflexivity|].
  exact (update_dashboard_reuses parse_digits no_rounding read_csv_up
           read_csv_down one_station url_digest frame_digest (Date 2023 3 5)
           "CO_ASOS" "DEN" "max_temp_f" "precip_in" empty_session stats s' E).
Defined.

Lemma update_dashboard_download_failure_witness :
  (update_dashboard parse_digits no_rounding read_csv_down one_station
     url_digest frame_digest (Date 2023 3 5) "CO_ASOS" "DEN" "max_temp_f"
     empty_session).1 = Raise (Other "HTTPError").
Proof.
  destruct (update_dashboard_download_failure parse_digits no_rounding
              one_station url_digest frame_digest read_csv_down
              (Date 2023 3 5) "CO_ASOS" "DEN" "max_temp_f" empty_session
              (Other "HTTPError")) as (H & _); [reflexivity..|].
  exact H.
Defined.

Lemma update_dashboard_unclean_table_kept_witness :
  let r := update_dashboard parse_digits no_rounding read_csv_no_station
             one_station url_digest frame_digest (Date 2023 3 5) "CO_ASOS"
             "DEN" "max_temp_f" empty_session in
  r.1 = Raise KeyError
  ∧ update_dashboard parse_digits no_rounding read_csv_up one_station
      url_digest frame_digest (Date 2023 3 5) "CO_ASOS" "DEN" "max_temp_f" r.2
    = (Raise KeyError, r.2).
Proof.
  intros r.
  destruct (update_dashboard_unclean_table_kept parse_digits no_rounding
              one_station url_digest frame_digest read_csv_no_station
              (Date 2023 3 5) "CO_ASOS" "DEN" "max_temp_f" empty_session
              raw_table_no_station) as (H1 & H2).
  - reflexivity.
  - reflexivity.
  - vm_compute. intros H. apply list_elem_of_In in H.
    destruct H as [H|[H|[]]]; discriminate H.
  - split; [exact H1|]. apply H2.
Defined.

(** ** The status messages *)

Lemma js_split_not_nil sep s : js_split sep s ≠ [].
Proof.
  destruct s as [|c s]; simpl; [done|].
  destruct (decide (c = sep)); [done|]. by destruct (js_split sep s).
Qed.

(** No piece of a split holds the separator, and a piece holds only
    characters of the string that was split. *)
Lemma js_split_pieces sep s x :
  x ∈ js_split sep s → ¬ occurs sep x ∧ ∀ c, occurs c x → occurs c s.
Proof.
  revert x. induction s as [|c s IH]; intros x; simpl.
  - intros ->%list_elem_of_singleton. split; [simpl; tauto|done].
  - destruct (decide (c = sep)) as [->|Hne].
    + intros [->|Hx]%elem_of_cons; [split; [simpl; tauto|done]|].
      destruct (IH x Hx) as [H1 H2]. split; [done|]. intros c' Hc'.
      right. by apply H2.
    + destruct (js_split sep s) as [|h t] eqn:E.
      * intros ->%list_elem_of_singleton. simpl. split; [tauto|tauto].
      * intros [->|Hx]%elem_of_cons.
        -- destruct (IH h ltac:(left)) as [H1 H2]. simpl. split; [tauto|].
           intros c' [->|Hc']; [by left|right; by apply H2].
        -- destruct (IH x ltac:(by right)) as [H1 H2]. split; [done|].
           intros c' Hc'. right. by apply H2.
Qed.

Lemma js_split_no_sep sep s : ¬ occurs sep s → js_split sep s = [s].
Proof.
  induction s as [|c s IH]; simpl; [done|]. intros H.
  rewrite decide_False by tauto. by rewrite IH by tauto.
Qed.

Lemma js_split_app sep a b :
  js_split sep (a +:+ String sep b) = js_split sep a ++ js_split sep b.
Proof.
  induction a as [|c a IH]; simpl.
  - by rewrite decide_True.
  - destruct (decide (c = sep)); [by rewrite IH|].
    rewrite IH. destruct (js_split sep a) as [|h t] eqn:E; [|done].
    by apply js_split_not_nil in E.
Qed.

(** X19: The name shown for a wheel holds neither a slash nor a hyphen, and only
    characters of the wheel's URL; any other requirement is shown as it is
    written, version pin included. *)
Theorem pkg_name_wheel (pkg : string) :
  (endsWith pkg ".whl" = true →
   ¬ occurs "/" (pkg_name pkg) ∧ ¬ occurs "-" (pkg_name pkg)
   ∧ ∀ c, occurs c (pkg_name pkg) → occurs c pkg)
  ∧ (endsWith pkg ".whl" = false → pkg_name pkg = pkg).
Proof.
  unfold pkg_name. split; intros ->; [|done].
  destruct (last (js_split "/" pkg)) as [file|] eqn:Hlast;
    [|by apply last_None, js_split_not_nil in Hlast].
  apply last_Some_elem_of, js_split_pieces in Hlast as [Hf1 Hf2].
  unfold default at 2. cbn [from_option id].
  destruct (head (js_split "-" file)) as [name|] eqn:Hhead;
    [|by apply head_None, js_split_not_nil in Hhead].
  apply head_Some_elem_of, js_split_pieces in Hhead as [Hn1 Hn2].
  unfold default. cbn [from_option id]. split; [|split; [done|]].
  - intros H. by apply Hf1, Hn2.
  - intros c Hc. by apply Hf2, Hn2.
Qed.

Lemma pkg_name_wheel_witness : pkg_name <$> env_spec
  = ["bokeh"; "panel"; "pyodide-http==0.1.0"; "holoviews>=1.15.1";
     "holoviews>=1.15.1"; "hvplot"; "pandas"; "scipy"]
  ∧ ¬ occurs "-" (pkg_name
        "https://cdn.holoviz.org/panel/0.14.2/dist/wheels/bokeh-2.4.3-py3-none-any.whl").
Proof.
  split; [reflexivity|].
  apply (proj1 (pkg_name_wheel
    "https://cdn.holoviz.org/panel/0.14.2/dist/wheels/bokeh-2.4.3-py3-none-any.whl")).
  reflexivity.
Defined.

(** X20: The status message of a failed run is the last line of a traceback
    that ends with a line break, and is undefined for a traceback of a single
    line without a line break. *)
Theorem traceback_msg_last_line (body line : string) :
  ¬ occurs "010" line →
  traceback_msg (body +:+ String "010" (line +:+ String "010" EmptyString))
  = Some line
  ∧ traceback_msg line = None.
Proof.
  intros Hline. unfold traceback_msg. split.
  - rewrite !js_split_app, (js_split_no_sep _ line Hline). cbn [js_split].
    rewrite !length_app. cbn [length].
    rewrite decide_False by lia.
    replace (Z.to_nat (Z.of_nat (length (js_split "010" body) + (1 + 1)) - 2))
      with (length (js_split "010" body) + 0)%nat by lia.
    by rewrite lookup_app_r, Nat.add_comm, Nat.add_sub by lia.
  - rewrite (js_split_no_sep _ line Hline). cbn [length].
    by rewrite decide_True by lia.
Qed.

Lemma traceback_msg_last_line_witness :
  traceback_msg ("Traceback (most recent call last):"
                 +:+ String "010" ("KeyError: 0" +:+ String "010" EmptyString))
  = Some "KeyError: 0".
Proof.
  apply (traceback_msg_last_line "Traceback (most recent call last):"
           "KeyError: 0").
  vm_compute. intros H.
  repeat (destruct H as [H|H]; [discriminate H|]). exact H.
Defined.

(** ** The slice and its statistics together *)



Section SliceStatistics.

Variable load_station_df : string → result (list (string * string)).

(** X11: On the slice that [select_data] makes for a date, the dates reported
    with the minimum and the maximum are dates of the table that fall on
    that date's day of the year. *)
Theorem plot_data_extreme_dates_on_day d network station
    (table : DataFrame float) label stats :
  plot_data load_station_df d network station (select_data d table) label
  = Ok stats →
  (min_idx stats ∈ index table ∧ same_day d (min_idx stats))
  ∧ (max_idx stats ∈ index table ∧ same_day d (max_idx stats)).
Proof.
  intros Hok.
  destruct (plot_data_Ok_inv _ _ _ _ _ _ _ Hok)
    as (sdf & lbl & r & l & dt & q & Hin & Hsdf & Hitem & Hvs & Hlast).
  rewrite (plot_data_Ok load_station_df d network station _ label
             sdf lbl r l dt q) in Hok by done.
  injection Hok as <-. cbn [min_idx max_idx].
  assert (Hrow : ∀ x, x ∈ r :: l → x.1 ∈ index table ∧ same_day d x.1).
  { intros [dx qx] Hx. rewrite <- Hvs in Hx.
    apply variable_series_elem_of in Hx as (row & Hrow & <- & _).
    rewrite select_data_rows in Hrow.
    apply list_elem_of_filter in Hrow as [Hday Hrow]. split; [|done].
    simpl. unfold index. by apply list_elem_of_fmap_2. }
  destruct (argmin_from_first r l) as (Hmin & _).
  destruct (argmax_from_first r l) as (Hmax & _).
  split; by apply Hrow.
Qed.


End SliceStatistics.

Lemma plot_data_extreme_dates_on_day_witness :
  ∃ stats,
    plot_data one_station (Date 2023 3 5) "CO_ASOS" "DEN"
      (select_data (Date 2023 3 5) cleaned_table) "max_temp_f" = Ok stats
    ∧ same_day (Date 2023 3 5) (min_idx stats)
    ∧ same_day (Date 2023 3 5) (max_idx stats).
Proof.
  destruct (plot_data one_station (Date 2023 3 5) "CO_ASOS" "DEN"
              (select_data (Date 2023 3 5) cleaned_table) "max_temp_f")
    as [stats|e] eqn:E; [|vm_compute in E; discriminate E].
  destruct (plot_data_extreme_dates_on_day one_station _ _ _ _ _ stats E)
    as [[_ Hmin] [_ Hmax]].
  by exists stats.
Defined.

